(** * Bank statement analysis: the structured-extraction pipeline

    A shallow embedding of [bank_statement_analysis/app.py]: the Pydantic
    schema models, the request payload, and [process_bank_transactions]
    with its nested [try]/[except] blocks; then [extract_pdf_text] and
    the Streamlit script that calls the two functions, with Marker,
    pandas and [json.dumps] taken as given.

    The program talks to three libraries.  Each is modelled just far
    enough to run the program on concrete inputs:
    - [json] (the decoder of CPython, [json.loads]);
    - [requests] (the exception hierarchy, [raise_for_status], [json()]);
    - [pydantic] (field validation and [model_json_schema]).

    Conventions.  A Python [str] is a Rocq [string] holding the UTF-8
    bytes of the text.  A Python [float] is kept as the exact decimal it
    was written as (sign, mantissa, power of ten): binary rounding is not
    part of the model.  The limits an interpreter puts on decoding JSON
    (recursion depth, the integer digit limit) are a parameter of the
    model, [Interpreter]: what holds for every interpreter is stated for
    every interpreter. *)

From Stdlib Require Import String Ascii List ZArith NArith Bool Lia.
From Stdlib Require Import DecimalString.
From Stdlib.Strings Require Import Byte.
Import ListNotations.

Set Warnings "-register-all".

Local Open Scope string_scope.
Local Open Scope list_scope.

(** ** Python values *)

Inductive pyfloat : Type :=
| FDec (neg : bool) (mantissa : N) (exponent : Z)
| FNaN
| FInf (neg : bool).

Inductive pyval : Type :=
| PNone
| PBool (b : bool)
| PInt (n : Z)
| PFloat (f : pyfloat)
| PStr (s : string)
| PList (l : list pyval)
| PDict (d : list (string * pyval)).

(** [type(v).__name__] *)
Definition type_name (v : pyval) : string :=
  match v with
  | PNone => "NoneType"
  | PBool _ => "bool"
  | PInt _ => "int"
  | PFloat _ => "float"
  | PStr _ => "str"
  | PList _ => "list"
  | PDict _ => "dict"
  end.

(** A [dict] keeps its keys in insertion order; assigning to a key that is
    present replaces the value where it stands. *)
Fixpoint dict_get {V : Type} (d : list (string * V)) (k : string) : option V :=
  match d with
  | [] => None
  | (k', v) :: d' => if String.eqb k' k then Some v else dict_get d' k
  end.

Fixpoint dict_set {V : Type} (d : list (string * V)) (k : string) (v : V)
  : list (string * V) :=
  match d with
  | [] => [(k, v)]
  | (k', v') :: d' =>
      if String.eqb k' k then (k', v) :: d' else (k', v') :: dict_set d' k v
  end.

Definition dict_has {V : Type} (d : list (string * V)) (k : string) : bool :=
  match dict_get d k with Some _ => true | None => false end.

(** ** Text helpers *)

Definition nat_str (n : nat) : string := NilZero.string_of_uint (Nat.to_uint n).

Definition Z_str (z : Z) : string := NilZero.string_of_int (Z.to_int z).

(** [needle in hay] for two [str] values. *)
Fixpoint str_contains (needle hay : string) : bool :=
  String.prefix needle hay
  || match hay with
     | EmptyString => false
     | String _ hay' => str_contains needle hay'
     end.

(** Program text below writes a back-tick where the Python text has a
    double quote; [dq] puts the double quotes back. *)
Definition dquote : ascii := ascii_of_nat 34.
Definition backtick : ascii := ascii_of_nat 96.

Fixpoint dq (s : string) : string :=
  match s with
  | EmptyString => EmptyString
  | String c s' => String (if Ascii.eqb c backtick then dquote else c) (dq s')
  end.

(** ** Exceptions

    Only classes deriving from [Exception] are modelled: these are what a
    library call can raise as a result.  [bases] gives the direct base
    classes, as declared by CPython and by [requests.exceptions].  The
    [except] clauses of the program name [Timeout], [ConnectionError],
    [JSONDecodeError] and [Exception]; an exception of a class that is not
    listed here stands as its nearest listed base class. *)

Inductive exn_class : Type :=
| Exception_
| TypeError
| ValueError
| LookupError
| KeyError
| OSError
| RuntimeError
| RecursionError
| JSONDecodeError            (* json.JSONDecodeError *)
| RequestException
| InvalidJSONError
| RequestsJSONDecodeError    (* requests.exceptions.JSONDecodeError *)
| HTTPError
| ConnectionError            (* requests.exceptions.ConnectionError *)
| ProxyError
| SSLError
| Timeout
| ConnectTimeout
| ReadTimeout
| TooManyRedirects
| InvalidURL
| ChunkedEncodingError
| ContentDecodingError.

Definition bases (c : exn_class) : list exn_class :=
  match c with
  | Exception_ => []
  | TypeError | ValueError | LookupError | OSError | RuntimeError => [Exception_]
  | KeyError => [LookupError]
  | RecursionError => [RuntimeError]
  | JSONDecodeError => [ValueError]
  | RequestException => [OSError]
  | InvalidJSONError => [RequestException]
  | RequestsJSONDecodeError => [InvalidJSONError; JSONDecodeError]
  | HTTPError | ConnectionError | Timeout | TooManyRedirects
  | ChunkedEncodingError => [RequestException]
  | InvalidURL => [RequestException; ValueError]
  | ContentDecodingError => [RequestException]
  | ProxyError | SSLError => [ConnectionError]
  | ConnectTimeout => [ConnectionError; Timeout]
  | ReadTimeout => [Timeout]
  end.

Definition exn_class_eqb (c d : exn_class) : bool :=
  match c, d with
  | Exception_, Exception_ | TypeError, TypeError | ValueError, ValueError
  | LookupError, LookupError | KeyError, KeyError | OSError, OSError
  | RuntimeError, RuntimeError | RecursionError, RecursionError
  | JSONDecodeError, JSONDecodeError
  | RequestException, RequestException | InvalidJSONError, InvalidJSONError
  | RequestsJSONDecodeError, RequestsJSONDecodeError | HTTPError, HTTPError
  | ConnectionError, ConnectionError | ProxyError, ProxyError
  | SSLError, SSLError | Timeout, Timeout | ConnectTimeout, ConnectTimeout
  | ReadTimeout, ReadTimeout | TooManyRedirects, TooManyRedirects
  | InvalidURL, InvalidURL | ChunkedEncodingError, ChunkedEncodingError
  | ContentDecodingError, ContentDecodingError => true
  | _, _ => false
  end.

Fixpoint issubclass_upto (depth : nat) (c d : exn_class) : bool :=
  exn_class_eqb c d
  || match depth with
     | O => false
     | S depth' => existsb (fun b => issubclass_upto depth' b d) (bases c)
     end.

(** The hierarchy is five levels deep at most. *)
Definition issubclass : exn_class -> exn_class -> bool := issubclass_upto 5.

(** A raised exception: its class and [str(e)]. *)
Record exn : Type := mk_exn { exn_cls : exn_class; exn_str : string }.

Definition isinstance (e : exn) (c : exn_class) : bool := issubclass (exn_cls e) c.

(** ** The limits of the interpreter

    Decoding JSON ends in one of three ways: with a value, with a
    [JSONDecodeError] for a text that is not JSON, or with an exception of
    another class when the decoder meets a limit of the interpreter
    first: a [RecursionError] when the arrays and objects of the text lie
    deeper inside one another than the frames left on the stack allow,
    a [ValueError] when an integer of the text has more digits than
    [sys.get_int_max_str_digits()] allows.

    Whether a text meets a limit depends on the state of the interpreter
    where the decoder is called (the frames in use, the limits set).  It
    is taken from the interpreter, for each of the two places where the
    program decodes JSON, and is not computed from the text here. *)

Inductive excess : Type :=
| TooDeep (doing : string)
| TooManyDigits (limit digits : nat).

(** The exception for a limit, with CPython's message. *)
Definition excess_exn (x : excess) : exn :=
  match x with
  | TooDeep doing =>
      mk_exn RecursionError ("maximum recursion depth exceeded" ++ doing)
  | TooManyDigits limit digits =>
      mk_exn ValueError
        ("Exceeds the limit (" ++ nat_str limit
           ++ " digits) for integer string conversion: value has " ++ nat_str digits
           ++ " digits; use sys.set_int_max_str_digits() to increase the limit")
  end.

Class Interpreter : Type := {
  (** the limit that [json.loads(content)] meets on a text, if any *)
  loads_stops : string -> option excess;
  (** the limit that [response.json()] meets on a body, if any *)
  response_json_stops : string -> option excess
}.

(** ** The JSON decoder

    [json.loads] as CPython's scanner implements it (strict mode).
    Positions count characters, so a UTF-8 continuation byte does not
    advance them. *)

Module Json.

Local Open Scope char_scope.

Inductive scan (A : Type) : Type :=
| Found (a : A) (rest : list ascii) (pos : nat)
| Fail (msg : string) (pos : nat).
Arguments Found {A} a rest pos.
Arguments Fail {A} msg pos.

Definition scan_map {A B : Type} (f : A -> B) (r : scan A) : scan B :=
  match r with
  | Found a rest pos => Found (f a) rest pos
  | Fail msg pos => Fail msg pos
  end.

Definition is_cont (c : ascii) : bool :=
  let n := nat_of_ascii c in (128 <=? n)%nat && (n <? 192)%nat.

Definition adv (c : ascii) (pos : nat) : nat := if is_cont c then pos else S pos.

Fixpoint cp_length (s : list ascii) : nat :=
  match s with
  | [] => O
  | c :: s' => adv c (cp_length s')
  end.

Definition is_ws (c : ascii) : bool :=
  match c with
  | " " | "009" | "010" | "013" => true
  | _ => false
  end.

Fixpoint skip_ws (s : list ascii) (pos : nat) : list ascii * nat :=
  match s with
  | c :: s' => if is_ws c then skip_ws s' (S pos) else (s, pos)
  | [] => ([], pos)
  end.

Definition is_digit (c : ascii) : bool :=
  let n := nat_of_ascii c in (48 <=? n)%nat && (n <=? 57)%nat.

Definition hex_val (c : ascii) : option N :=
  let n := N_of_ascii c in
  if (48 <=? n)%N && (n <=? 57)%N then Some (n - 48)%N
  else if (65 <=? n)%N && (n <=? 70)%N then Some (n - 55)%N
  else if (97 <=? n)%N && (n <=? 102)%N then Some (n - 87)%N
  else None.

Definition hex4 (a b c d : ascii) : option N :=
  match hex_val a, hex_val b, hex_val c, hex_val d with
  | Some w, Some x, Some y, Some z => Some (((w * 16 + x) * 16 + y) * 16 + z)%N
  | _, _, _, _ => None
  end.

Definition is_high_surrogate (cp : N) : bool := (55296 <=? cp)%N && (cp <=? 56319)%N.
Definition is_low_surrogate (cp : N) : bool := (56320 <=? cp)%N && (cp <=? 57343)%N.
Definition join_surrogates (hi lo : N) : N :=
  (65536 + (hi - 55296) * 1024 + (lo - 56320))%N.

(** The bytes of one character. *)
Definition utf8 (cp : N) : list ascii :=
  let b := ascii_of_N in
  if (cp <? 128)%N then [b cp]
  else if (cp <? 2048)%N then [b (192 + cp / 64); b (128 + cp mod 64)]%N
  else if (cp <? 65536)%N then
    [b (224 + cp / 4096); b (128 + (cp / 64) mod 64); b (128 + cp mod 64)]%N
  else
    [b (240 + cp / 262144); b (128 + (cp / 4096) mod 64);
     b (128 + (cp / 64) mod 64); b (128 + cp mod 64)]%N.

Definition unescape (c : ascii) : option ascii :=
  match c with
  | "034" => Some "034"
  | "\" => Some "\"
  | "/" => Some "/"
  | "b" => Some "008"
  | "f" => Some "012"
  | "n" => Some "010"
  | "r" => Some "013"
  | "t" => Some "009"
  | _ => None
  end.

(** [scanstring]: [s] starts just after the opening quote, which stands at
    [begin]; [acc] holds the bytes read so far, last first. *)
Fixpoint scanstring (begin : nat) (s : list ascii) (pos : nat) (acc : list ascii)
  : scan string :=
  match s with
  | [] => Fail "Unterminated string starting at" begin
  | c :: s1 =>
      if Ascii.eqb c "034" then Found (string_of_list_ascii (rev acc)) s1 (S pos)
      else if Ascii.eqb c "\" then
        match s1 with
        | [] => Fail "Unterminated string starting at" begin
        | e :: s2 =>
            if Ascii.eqb e "u" then
              if (cp_length s2 <=? 4)%nat then Fail "Invalid \uXXXX escape" (S pos)
              else
                match s2 with
                | h1 :: h2 :: h3 :: h4 :: s3 =>
                    match hex4 h1 h2 h3 h4 with
                    | None => Fail "Invalid \uXXXX escape" (S pos)
                    | Some c1 =>
                        let lone := scanstring begin s3 (pos + 6) (rev_append (utf8 c1) acc) in
                        if is_high_surrogate c1 && (7 <=? cp_length s3)%nat then
                          match s3 with
                          | b :: u :: g1 :: g2 :: g3 :: g4 :: s4 =>
                              if Ascii.eqb b "\" && Ascii.eqb u "u" then
                                match hex4 g1 g2 g3 g4 with
                                | None => Fail "Invalid \uXXXX escape" (pos + 7)
                                | Some c2 =>
                                    if is_low_surrogate c2 then
                                      scanstring begin s4 (pos + 12)
                                        (rev_append (utf8 (join_surrogates c1 c2)) acc)
                                    else lone
                                end
                              else lone
                          | _ => lone
                          end
                        else lone
                    end
                | _ => Fail "Invalid \uXXXX escape" (S pos)
                end
            else
              match unescape e with
              | Some c' => scanstring begin s2 (pos + 2) (c' :: acc)
              | None => Fail "Invalid \escape" pos
              end
        end
      else if (nat_of_ascii c <=? 31)%nat then Fail "Invalid control character at" pos
      else scanstring begin s1 (adv c pos) (c :: acc)
  end.

(** Numbers: an optional minus sign; a zero, or a non-zero digit and
    more digits; optionally a dot and one digit or more; optionally an
    exponent mark, a sign and one digit or more.  The longest match wins. *)
Fixpoint take_digits (s : list ascii) : list ascii * list ascii :=
  match s with
  | c :: s' =>
      if is_digit c then let (ds, rest) := take_digits s' in (c :: ds, rest)
      else ([], s)
  | [] => ([], [])
  end.

Definition digits_value (ds : list ascii) : N :=
  fold_left (fun acc c => (acc * 10 + (N_of_ascii c - 48))%N) ds 0%N.

Definition take_sign (s : list ascii) : bool * list ascii :=
  match s with
  | "-" :: s' => (true, s')
  | _ => (false, s)
  end.

Definition take_int (s : list ascii) : option (list ascii * list ascii) :=
  match s with
  | "0" :: s' => Some (["0"], s')
  | c :: _ => if is_digit c then Some (take_digits s) else None
  | [] => None
  end.

Definition take_frac (s : list ascii) : list ascii * list ascii :=
  match s with
  | "." :: c :: s' => if is_digit c then take_digits (c :: s') else ([], s)
  | _ => ([], s)
  end.

(** The exponent: whether its sign is a minus, its digits, what follows
    it and how many characters it takes; nothing when no digit follows. *)
Definition take_exp (s : list ascii) : option (bool * list ascii * nat) * list ascii :=
  match s with
  | e :: s' =>
      if Ascii.eqb e "e" || Ascii.eqb e "E" then
        let '(eneg, sign_len, s'') :=
          match s' with
          | "-" :: t => (true, 1%nat, t)
          | "+" :: t => (false, 1%nat, t)
          | _ => (false, O, s')
          end in
        match take_digits s'' with
        | ([], _) => (None, s)
        | (ds, rest) => (Some (eneg, ds, (1 + sign_len + length ds)%nat), rest)
        end
      else (None, s)
  | [] => (None, s)
  end.

Definition match_number (s : list ascii) (pos : nat) : scan pyval :=
  let (neg, s0) := take_sign s in
  match take_int s0 with
  | None => Fail "Expecting value" pos
  | Some (ids, s1) =>
      let (fds, s2) := take_frac s1 in
      let (exp, s3) := take_exp s2 in
      let sign_len := if neg then 1%nat else O in
      let frac_len := match fds with [] => O | _ => S (length fds) end in
      match fds, exp with
      | [], None =>
          let n := Z.of_N (digits_value ids) in
          Found (PInt (if neg then (- n)%Z else n)) s3
            (sign_len + length ids + pos)
      | _, None =>
          Found (PFloat (FDec neg (digits_value (ids ++ fds))
                           (- Z.of_nat (length fds))%Z))
            s3 (sign_len + length ids + frac_len + pos)
      | _, Some (eneg, eds, exp_len) =>
          let e := Z.of_N (digits_value eds) in
          Found (PFloat (FDec neg (digits_value (ids ++ fds))
                           ((if eneg then - e else e) - Z.of_nat (length fds))%Z))
            s3 (sign_len + length ids + frac_len + exp_len + pos)
      end
  end.

Fixpoint strip_prefix (p : string) (s : list ascii) : option (list ascii) :=
  match p, s with
  | EmptyString, _ => Some s
  | String c p', d :: s' => if Ascii.eqb c d then strip_prefix p' s' else None
  | String _ _, [] => None
  end.

Definition literals : list (string * pyval) :=
  [("null"%string, PNone); ("true"%string, PBool true); ("false"%string, PBool false);
   ("NaN"%string, PFloat FNaN); ("Infinity"%string, PFloat (FInf false));
   ("-Infinity"%string, PFloat (FInf true))].

Fixpoint match_literal (ls : list (string * pyval)) (s : list ascii) (pos : nat)
  : option (scan pyval) :=
  match ls with
  | [] => None
  | (w, v) :: ls' =>
      match strip_prefix w s with
      | Some rest => Some (Found v rest (String.length w + pos))
      | None => match_literal ls' s pos
      end
  end.

(** [scan_once] and the two loops it calls.  Recursion is on [fuel]:
    every call either stands one level deeper in the text or has read
    further, and [parse] gives twice the length of the text and four
    more, which is never used up ([parse_fueled] below). *)
Fixpoint scan_once (fuel : nat) (s : list ascii) (pos : nat) {struct fuel} : scan pyval :=
  match fuel with
  | O => Fail "out of fuel" pos
  | S fuel' =>
      match s with
      | [] => Fail "Expecting value" pos
      | c :: s' =>
          if Ascii.eqb c "034" then scan_map PStr (scanstring pos s' (S pos) [])
          else if Ascii.eqb c "{" then
            let (s1, p1) := skip_ws s' (S pos) in
            match s1 with
            | "}" :: s2 => Found (PDict []) s2 (S p1)
            | _ => parse_object fuel' s1 p1 []
            end
          else if Ascii.eqb c "[" then
            let (s1, p1) := skip_ws s' (S pos) in
            match s1 with
            | "]" :: s2 => Found (PList []) s2 (S p1)
            | _ => parse_array fuel' s1 p1 []
            end
          else
            match match_literal literals s pos with
            | Some r => r
            | None => match_number s pos
            end
      end
  end

with parse_object (fuel : nat) (s : list ascii) (pos : nat)
       (acc : list (string * pyval)) {struct fuel} : scan pyval :=
  match fuel with
  | O => Fail "out of fuel" pos
  | S fuel' =>
      match s with
      | "034" :: s1 =>
          match scanstring pos s1 (S pos) [] with
          | Fail msg p => Fail msg p
          | Found key s2 p2 =>
              let (s3, p3) := skip_ws s2 p2 in
              match s3 with
              | ":" :: s4 =>
                  let (s5, p5) := skip_ws s4 (S p3) in
                  match scan_once fuel' s5 p5 with
                  | Fail msg p => Fail msg p
                  | Found v s6 p6 =>
                      let acc' := dict_set acc key v in
                      let (s7, p7) := skip_ws s6 p6 in
                      match s7 with
                      | "}" :: s8 => Found (PDict acc') s8 (S p7)
                      | "," :: s8 =>
                          let (s9, p9) := skip_ws s8 (S p7) in
                          parse_object fuel' s9 p9 acc'
                      | _ => Fail "Expecting ',' delimiter" p7
                      end
                  end
              | _ => Fail "Expecting ':' delimiter" p3
              end
          end
      | _ => Fail "Expecting property name enclosed in double quotes" pos
      end
  end

with parse_array (fuel : nat) (s : list ascii) (pos : nat)
       (acc : list pyval) {struct fuel} : scan pyval :=
  match fuel with
  | O => Fail "out of fuel" pos
  | S fuel' =>
      match scan_once fuel' s pos with
      | Fail msg p => Fail msg p
      | Found v s1 p1 =>
          let (s2, p2) := skip_ws s1 p1 in
          match s2 with
          | "]" :: s3 => Found (PList (rev (v :: acc))) s3 (S p2)
          | "," :: s3 =>
              let (s4, p4) := skip_ws s3 (S p2) in
              parse_array fuel' s4 p4 (v :: acc)
          | _ => Fail "Expecting ',' delimiter" p2
          end
      end
  end.

(** What [JSONDecodeError] records: the message and the position. *)
Record decode_error : Type := mk_decode_error { err_msg : string; err_pos : nat }.

Definition bom : list ascii := ["239"; "187"; "191"].

(** The text as JSON: one value, white space around it, nothing else.
    This is [JSONDecoder.decode] when no limit of the interpreter is met. *)
Definition parse (doc : string) : pyval + decode_error :=
  let s := list_ascii_of_string doc in
  match strip_prefix (string_of_list_ascii bom) s with
  | Some _ => inr (mk_decode_error "Unexpected UTF-8 BOM (decode using utf-8-sig)" 0)
  | None =>
      let (s0, p0) := skip_ws s O in
      match scan_once (2 * length s + 4) s0 p0 with
      | Fail msg p => inr (mk_decode_error msg p)
      | Found v s1 p1 =>
          let (s2, p2) := skip_ws s1 p1 in
          match s2 with
          | [] => inl v
          | _ :: _ => inr (mk_decode_error "Extra data" p2)
          end
      end
  end.

(** Line and column of character [pos] of [s], counting from [line], [col]. *)
Fixpoint line_col (s : list ascii) (pos line col : nat) : nat * nat :=
  match pos, s with
  | O, _ | _, [] => (line, col)
  | S pos', c :: s' =>
      if Ascii.eqb c "010" then line_col s' pos' (S line) 1%nat
      else if is_cont c then line_col s' pos line col
      else line_col s' pos' line (S col)
  end.

(** [str(e)] for a [JSONDecodeError]. *)
Definition error_str (doc : string) (e : decode_error) : string :=
  let (line, col) := line_col (list_ascii_of_string doc) (err_pos e) 1 1 in
  (err_msg e ++ ": line " ++ nat_str line ++ " column " ++ nat_str col
     ++ " (char " ++ nat_str (err_pos e) ++ ")")%string.

(** How decoding fails: the text is not JSON, or a limit was met. *)
Inductive failure : Type :=
| Invalid (e : decode_error)
| Stopped (x : excess).

(** Decoding where the interpreter meets its limits on the texts that
    [stops] says. *)
Definition decode_with (stops : string -> option excess) (doc : string)
  : pyval + failure :=
  match stops doc with
  | Some x => inr (Stopped x)
  | None =>
      match parse doc with
      | inl v => inl v
      | inr e => inr (Invalid e)
      end
  end.

(** [JSONDecoder.decode], as [json.loads] calls it on the content. *)
Definition decode {python : Interpreter} (doc : string) : pyval + failure :=
  decode_with loads_stops doc.

End Json.

(** ** The schema models

    [class AccountHolder(BaseModel)], [class Transaction(BaseModel)] and
    [class BankStatement(BaseModel)]: the instances are records, and the
    declared fields with their annotations are kept as tables, which is
    what Pydantic validates against and builds the JSON schema from. *)

Record AccountHolder : Type := mk_AccountHolder {
  name : string;
  account_number : string
}.

Record Transaction : Type := mk_Transaction {
  date : string;
  amount : pyfloat;
  currency : string;
  type : string;
  description : string;
  balance : pyfloat
}.

Record BankStatement : Type := mk_BankStatement {
  account_holder : AccountHolder;
  transactions : list Transaction
}.

Inductive annotation : Type :=
| A_str
| A_float
| A_model (cls : string)
| A_List (item : annotation).

Record model_class : Type := mk_model_class {
  cls_name : string;
  cls_fields : list (string * annotation)
}.

Definition AccountHolder_cls : model_class :=
  mk_model_class "AccountHolder"
    [("name", A_str); ("account_number", A_str)].

Definition Transaction_cls : model_class :=
  mk_model_class "Transaction"
    [("date", A_str); ("amount", A_float); ("currency", A_str);
     ("type", A_str); ("description", A_str); ("balance", A_float)].

Definition BankStatement_cls : model_class :=
  mk_model_class "BankStatement"
    [("account_holder", A_model "AccountHolder");
     ("transactions", A_List (A_model "Transaction"))].

Definition declared_models : list model_class :=
  [AccountHolder_cls; Transaction_cls; BankStatement_cls].

Module Pydantic.

(** *** Validation (lax mode, extra keys ignored)

    An error is the path to the value and Pydantic's error type. *)

Inductive loc_item : Type :=
| Key (k : string)
| Index (i : nat).

Record verror : Type := mk_verror { err_loc : list loc_item; err_type : string }.

Definition vresult (A : Type) : Type := (A + list verror)%type.

(** Every field is validated; the errors of all of them are reported. *)
Definition vap {A B : Type} (f : vresult (A -> B)) (x : vresult A) : vresult B :=
  match f, x with
  | inl g, inl a => inl (g a)
  | inl _, inr e => inr e
  | inr e, inl _ => inr e
  | inr e1, inr e2 => inr (e1 ++ e2)
  end.

Local Notation "f <*> x" := (vap f x) (at level 50, left associativity).

Definition float_of_int (n : Z) : pyfloat := FDec (n <? 0)%Z (Z.abs_N n) 0.

Local Open Scope char_scope.

Definition is_space (c : ascii) : bool :=
  match c with
  | " " | "009" | "010" | "011" | "012" | "013" => true
  | _ => false
  end.

Fixpoint drop_spaces (s : list ascii) : list ascii :=
  match s with
  | c :: s' => if is_space c then drop_spaces s' else s
  | [] => []
  end.

Definition trim (s : list ascii) : list ascii :=
  rev (drop_spaces (rev (drop_spaces s))).

Definition lower (c : ascii) : ascii :=
  let n := nat_of_ascii c in
  if (65 <=? n)%nat && (n <=? 90)%nat then ascii_of_nat (n + 32) else c.

Definition upper (c : ascii) : ascii :=
  let n := nat_of_ascii c in
  if (97 <=? n)%nat && (n <=? 122)%nat then ascii_of_nat (n - 32) else c.

Definition is_letter (c : ascii) : bool :=
  let n := nat_of_ascii (lower c) in (97 <=? n)%nat && (n <=? 122)%nat.

Definition word_is (w : string) (s : list ascii) : bool :=
  String.eqb w (string_of_list_ascii (map lower s)).

(** The text of a float: an optional sign, then [inf], [infinity], [nan]
    or a decimal number with digits on one side of the dot at least and an
    optional exponent. *)
Definition parse_float (s : list ascii) : option pyfloat :=
  let (neg, s0) :=
    match s with
    | "-" :: s' => (true, s')
    | "+" :: s' => (false, s')
    | _ => (false, s)
    end in
  if word_is "inf" s0 || word_is "infinity" s0 then Some (FInf neg)
  else if word_is "nan" s0 then Some FNaN
  else
    let (ids, s1) := Json.take_digits s0 in
    let (fds, s2) :=
      match s1 with
      | "." :: s' => Json.take_digits s'
      | _ => ([], s1)
      end in
    match ids ++ fds with
    | [] => None
    | mant =>
        let finish (e : Z) :=
          Some (FDec neg (Json.digits_value mant) (e - Z.of_nat (length fds))) in
        match s2 with
        | [] => finish 0%Z
        | e :: s3 =>
            if Ascii.eqb (lower e) "e" then
              let (eneg, s4) :=
                match s3 with
                | "-" :: s' => (true, s')
                | "+" :: s' => (false, s')
                | _ => (false, s3)
                end in
              match Json.take_digits s4 with
              | ((_ :: _) as eds, []) =>
                  let v := Z.of_N (Json.digits_value eds) in
                  finish (if eneg then (- v)%Z else v)
              | _ => None
              end
            else None
        end
    end.

Fixpoint has_double_underscore (s : list ascii) : bool :=
  match s with
  | "_" :: ("_" :: _) => true
  | _ :: s' => has_double_underscore s'
  | [] => false
  end.

(** Underscores between digits are dropped when the plain reading fails. *)
Definition strip_underscores (s : list ascii) : option (list ascii) :=
  let is_us c := Ascii.eqb c "_" in
  match s, rev s with
  | c :: _, d :: _ =>
      if is_us c || is_us d || negb (existsb is_us s) || has_double_underscore s
      then None
      else Some (filter (fun c => negb (is_us c)) s)
  | _, _ => None
  end.

Definition str_as_float (s : string) : option pyfloat :=
  let l := list_ascii_of_string s in
  match parse_float (trim l) with
  | Some f => Some f
  | None =>
      match strip_underscores l with
      | Some l' => parse_float l'
      | None => None
      end
  end.

Local Close Scope char_scope.

Definition validate_str (loc : list loc_item) (v : pyval) : vresult string :=
  match v with
  | PStr s => inl s
  | _ => inr [mk_verror loc "string_type"]
  end.

Definition validate_float (loc : list loc_item) (v : pyval) : vresult pyfloat :=
  match v with
  | PFloat f => inl f
  | PInt n => inl (float_of_int n)
  | PStr s =>
      match str_as_float s with
      | Some f => inl f
      | None => inr [mk_verror loc "float_parsing"]
      end
  | _ => inr [mk_verror loc "float_type"]
  end.

(** A declared field of a model: missing, or validated where it stands. *)
Definition field {A : Type} (d : list (string * pyval)) (loc : list loc_item)
  (k : string) (validate : list loc_item -> pyval -> vresult A) : vresult A :=
  match dict_get d k with
  | Some v => validate (loc ++ [Key k]) v
  | None => inr [mk_verror (loc ++ [Key k]) "missing"]
  end.

Fixpoint validate_items {A : Type} (validate : list loc_item -> pyval -> vresult A)
  (loc : list loc_item) (i : nat) (l : list pyval) : vresult (list A) :=
  match l with
  | [] => inl []
  | v :: l' =>
      inl cons <*> validate (loc ++ [Index i]) v
               <*> validate_items validate loc (S i) l'
  end.

Definition validate_list {A : Type} (validate : list loc_item -> pyval -> vresult A)
  (loc : list loc_item) (v : pyval) : vresult (list A) :=
  match v with
  | PList l => validate_items validate loc 0 l
  | _ => inr [mk_verror loc "list_type"]
  end.

Definition validate_AccountHolder (loc : list loc_item) (v : pyval)
  : vresult AccountHolder :=
  match v with
  | PDict d =>
      inl mk_AccountHolder
        <*> field d loc "name" validate_str
        <*> field d loc "account_number" validate_str
  | _ => inr [mk_verror loc "model_type"]
  end.

Definition validate_Transaction (loc : list loc_item) (v : pyval)
  : vresult Transaction :=
  match v with
  | PDict d =>
      inl mk_Transaction
        <*> field d loc "date" validate_str
        <*> field d loc "amount" validate_float
        <*> field d loc "currency" validate_str
        <*> field d loc "type" validate_str
        <*> field d loc "description" validate_str
        <*> field d loc "balance" validate_float
  | _ => inr [mk_verror loc "model_type"]
  end.

Definition validate_BankStatement (loc : list loc_item) (v : pyval)
  : vresult BankStatement :=
  match v with
  | PDict d =>
      inl mk_BankStatement
        <*> field d loc "account_holder" validate_AccountHolder
        <*> field d loc "transactions" (validate_list validate_Transaction)
  | _ => inr [mk_verror loc "model_type"]
  end.

(** Building a [Transaction] from keyword arguments, and
    [BankStatement.model_validate(obj)]. *)
Definition new_Transaction (kwargs : list (string * pyval)) : vresult Transaction :=
  validate_Transaction [] (PDict kwargs).

Definition model_validate (obj : pyval) : vresult BankStatement :=
  validate_BankStatement [] obj.

(** *** [model_json_schema] *)

Fixpoint title_case (after_letter : bool) (s : string) : string :=
  match s with
  | EmptyString => EmptyString
  | String c s' =>
      let c' := if is_letter c then (if after_letter then lower c else upper c)
                else if Ascii.eqb c "_"%char then " "%char else c in
      String c' (title_case (is_letter c) s')
  end.

(** [name.title().replace('_', ' ')] *)
Definition field_title (k : string) : string := title_case false k.

Fixpoint annotation_schema (a : annotation) : list (string * pyval) :=
  match a with
  | A_str => [("type", PStr "string")]
  | A_float => [("type", PStr "number")]
  | A_model cls => [("$ref", PStr ("#/$defs/" ++ cls))]
  | A_List item => [("items", PDict (annotation_schema item)); ("type", PStr "array")]
  end.

(** Keys come out sorted; a reference carries no title. *)
Definition field_schema (k : string) (a : annotation) : pyval :=
  match a with
  | A_str | A_float =>
      PDict (("title", PStr (field_title k)) :: annotation_schema a)
  | A_model _ => PDict (annotation_schema a)
  | A_List item =>
      PDict [("items", PDict (annotation_schema item));
             ("title", PStr (field_title k)); ("type", PStr "array")]
  end.

Definition class_schema (m : model_class) : list (string * pyval) :=
  [("properties", PDict (map (fun f => (fst f, field_schema (fst f) (snd f))) (cls_fields m)));
   ("required", PList (map (fun f => PStr (fst f)) (cls_fields m)));
   ("title", PStr (cls_name m));
   ("type", PStr "object")].

Fixpoint annotation_refs (a : annotation) : list string :=
  match a with
  | A_str | A_float => []
  | A_model cls => [cls]
  | A_List item => annotation_refs item
  end.

Definition find_class (registry : list model_class) (n : string) : option model_class :=
  find (fun m => String.eqb (cls_name m) n) registry.

(** The models a class refers to go under [$defs].  The models declared
    here refer to leaf models only, in alphabetical order. *)
Definition model_json_schema (registry : list model_class) (m : model_class) : pyval :=
  let refs := flat_map (fun f => annotation_refs (snd f)) (cls_fields m) in
  let defs :=
    flat_map (fun n => match find_class registry n with
                       | Some d => [(n, PDict (class_schema d))]
                       | None => []
                       end) refs in
  match defs with
  | [] => PDict (class_schema m)
  | _ => PDict (("$defs", PDict defs) :: class_schema m)
  end.

End Pydantic.

(** ** Effects

    A computation either returns or raises, and it may send requests: the
    requests sent so far are threaded through as a log. *)

Inductive outcome (A : Type) : Type :=
| Ret (a : A)
| Raise (e : exn).
Arguments Ret {A} a.
Arguments Raise {A} e.

Record request : Type := mk_request {
  req_url : string;
  req_json : pyval;
  req_timeout : Z
}.

Definition M (A : Type) : Type := list request -> outcome A * list request.

Definition ret {A : Type} (a : A) : M A := fun log => (Ret a, log).

Definition raise {A : Type} (e : exn) : M A := fun log => (Raise e, log).

Definition bind {A B : Type} (m : M A) (k : A -> M B) : M B :=
  fun log =>
    match m log with
    | (Ret a, log') => k a log'
    | (Raise e, log') => (Raise e, log')
    end.

Definition lift {A : Type} (o : outcome A) : M A := fun log => (o, log).

Declare Scope py_scope.
Delimit Scope py_scope with py.
Notation "x <- m ;; k" := (bind m (fun x => k))
  (at level 61, m at next level, right associativity) : py_scope.
Notation "m ;;; k" := (bind m (fun _ => k))
  (at level 61, right associativity) : py_scope.

(** [try: body except C1: h1 except C2: h2 ...]: the first clause whose
    class the exception is an instance of handles it; with none, the
    exception goes on. *)
Definition handler (A : Type) : Type := (exn_class * (exn -> M A))%type.

Fixpoint select_handler {A : Type} (e : exn) (hs : list (handler A))
  : option (exn -> M A) :=
  match hs with
  | [] => None
  | (c, h) :: hs' => if isinstance e c then Some h else select_handler e hs'
  end.

Definition try_except {A : Type} (body : M A) (hs : list (handler A)) : M A :=
  fun log =>
    match body log with
    | (Ret a, log') => (Ret a, log')
    | (Raise e, log') =>
        match select_handler e hs with
        | Some h => h e log'
        | None => (Raise e, log')
        end
    end.

(** ** Operations on values *)

Definition py_repr (s : string) : string := "'" ++ s ++ "'".

(** [key in container], for a [str] key. *)
Definition py_contains (key : string) (container : pyval) : outcome bool :=
  match container with
  | PDict d => Ret (dict_has d key)
  | PList l =>
      Ret (existsb (fun x => match x with
                             | PStr s => String.eqb s key
                             | _ => false
                             end) l)
  | PStr s => Ret (str_contains key s)
  | _ => Raise (mk_exn TypeError
                  ("argument of type " ++ py_repr (type_name container)
                     ++ " is not iterable"))
  end.

(** [obj[key]], for a [str] key. *)
Definition py_getitem (obj : pyval) (key : string) : outcome pyval :=
  match obj with
  | PDict d =>
      match dict_get d key with
      | Some v => Ret v
      | None => Raise (mk_exn KeyError (py_repr key))
      end
  | PList _ => Raise (mk_exn TypeError "list indices must be integers or slices, not str")
  | PStr _ => Raise (mk_exn TypeError "string indices must be integers, not 'str'")
  | _ => Raise (mk_exn TypeError
                  (py_repr (type_name obj) ++ " object is not subscriptable"))
  end.

(** [json.loads(s)] *)
Definition json_loads {python : Interpreter} (s : pyval) : outcome pyval :=
  match s with
  | PStr doc =>
      match Json.decode doc with
      | inl v => Ret v
      | inr (Json.Invalid e) => Raise (mk_exn JSONDecodeError (Json.error_str doc e))
      | inr (Json.Stopped x) => Raise (excess_exn x)
      end
  | _ => Raise (mk_exn TypeError
                  ("the JSON object must be str, bytes or bytearray, not "
                     ++ type_name s))
  end.

(** ** The [requests] library *)

Record Response : Type := mk_Response {
  status_code : Z;
  reason : string;
  resp_url : string;
  resp_text : string
}.

(** [response.raise_for_status()] *)
Definition raise_for_status (r : Response) : outcome unit :=
  let msg (kind : string) :=
    (Z_str (status_code r) ++ " " ++ kind ++ " Error: " ++ reason r
       ++ " for url: " ++ resp_url r)%string in
  if ((400 <=? status_code r) && (status_code r <? 500))%Z then
    Raise (mk_exn HTTPError (msg "Client"))
  else if ((500 <=? status_code r) && (status_code r <? 600))%Z then
    Raise (mk_exn HTTPError (msg "Server"))
  else Ret tt.

(** [response.json()]: a [JSONDecodeError] of the decoder is raised again
    as the one of [requests]; other exceptions pass. *)
Definition Response_json {python : Interpreter} (r : Response) : outcome pyval :=
  match Json.decode_with response_json_stops (resp_text r) with
  | inl v => Ret v
  | inr (Json.Invalid e) =>
      Raise (mk_exn RequestsJSONDecodeError (Json.error_str (resp_text r) e))
  | inr (Json.Stopped x) => Raise (excess_exn x)
  end.

(** ** The program *)

(** [SYSTEM_MESSAGE], with a back-tick for each double quote (see [dq]). *)
Definition SYSTEM_MESSAGE : string := dq "
You are an advanced financial document parser specializing in extracting structured data from bank statements. Your task is to analyze the provided bank statement and convert the unstructured transaction data into a structured JSON format.

Key Requirements:
1. Extract account holder details
2. Parse all transactions accurately
3. Standardize date formats
4. Identify transaction types
5. Clean and simplify transaction descriptions
6. Handle multiple currencies
7. Maintain accurate balance tracking

Analyze the following bank statement and extract the required information:

Output Format:
Provide the extracted data in the following JSON structure:

{
    `transactions`: {
        `account_holder`: {
            `name`: `Full Name`,
            `account_number`: `Complete Account Number`
        },
        `transactions`: [
            {
                `date`: `DD-MM-YYYY`,
                `amount`: float,
                `currency`: `Currency Code`,
                `type`: `CREDIT or DEBIT`,
                `description`: `Cleaned Description`,
                `balance`: float
            },
            // ... more transactions
        ]
    }
}

Parsing Rules:
1. Account Holder:
   - Extract the full name as shown on the statement
   - Capture the complete account number

2. Transactions:
   - Date: Convert all dates to DD-MM-YYYY format
   - Amount: 
     - Remove currency symbols and commas
     - Convert to float
   - Currency: Detect the currency types INR or USD
   - Type:
     - CREDIT for deposits or positive amounts
     - DEBIT for withdrawals or negative amounts
   - Description:
     - Remove reference numbers, UPI IDs, and unnecessary banking terms
     - Keep relevant information like merchant names, payment purposes, or recipient names
   - Balance: Extract the closing balance for each transaction

3. Special Considerations:
   - Ignore any lines that are not actual transactions (e.g., headers, footers)
   - Ensure all numerical values are properly converted to floats
   - Maintain the chronological order of transactions

Parse the statement meticulously, ensuring all transactions are captured accurately. The output should strictly adhere to the provided JSON structure and parsing rules.

".

Section World.

(** What lies outside the program: the interpreter it runs in, the
    process environment, and the inference service, which answers a
    request with a response or makes [requests.post] raise. *)
Context {python : Interpreter}.
Variable environ : string -> option string.
Variable service : request -> outcome Response.

(** [os.getenv(key, default)] *)
Definition os_getenv (key default : string) : string :=
  match environ key with
  | Some v => v
  | None => default
  end.

(** [requests.post(url, json=..., timeout=...)] *)
Definition requests_post (url : string) (json : pyval) (timeout : Z) : M Response :=
  fun log =>
    let req := mk_request url json timeout in
    (service req, log ++ [req]).

(** The [url] and [payload] that [process_bank_transactions] builds
    before its [try] block. *)
Definition url : string :=
  let ollama_host := os_getenv "OLLAMA_HOST" "host.docker.internal" in
  "http://" ++ ollama_host ++ ":11434/api/chat".

Definition payload (text : string) : pyval :=
  PDict
    [("model", PStr "phi4");
     ("messages",
       PList
         [PDict [("role", PStr "system"); ("content", PStr SYSTEM_MESSAGE)];
          PDict [("role", PStr "user"); ("content", PStr text)]]);
     ("format", Pydantic.model_json_schema declared_models BankStatement_cls);
     ("stream", PBool false)].

Definition error_result (msg : string) : pyval := PDict [("error", PStr msg)].

Definition data_result (v : pyval) : pyval := PDict [("data", v)].

Local Open Scope py_scope.

Definition process_bank_transactions (text : string) : M pyval :=
  try_except
    (response <- requests_post url (payload text) 300 ;;
     lift (raise_for_status response) ;;;
     response_data <- lift (Response_json response) ;;
     has_message <- lift (py_contains "message" response_data) ;;
     if has_message : bool then
       try_except
         (message <- lift (py_getitem response_data "message") ;;
          content <- lift (py_getitem message "content") ;;
          transactions <- lift (json_loads content) ;;
          ret (data_result transactions))
         [(JSONDecodeError,
            fun _ => ret (error_result "Failed to parse model response as JSON"))]
     else ret (error_result "Unexpected response format from model"))
    [(Timeout,
       fun _ => ret (error_result "Request timed out connecting to Ollama"));
     (ConnectionError,
       fun _ => ret (error_result "Failed to connect to Ollama server"));
     (Exception_,
       fun e => ret (error_result ("Unexpected error: " ++ exn_str e)))].

End World.

(** One call of the function, from an empty log: what it returns or
    raises, and the requests it sent. *)
Definition call {A : Type} (m : M A) : outcome A * list request := m [].

(** ** The function as a decision tree

    [handled] is what the three outer [except] clauses make of an
    exception; [inner_try] is the inner [try] block; [answer] follows the
    outcome of the request through the function. *)

Definition handled (e : exn) : pyval :=
  if isinstance e Timeout then
    error_result "Request timed out connecting to Ollama"
  else if isinstance e ConnectionError then
    error_result "Failed to connect to Ollama server"
  else error_result ("Unexpected error: " ++ exn_str e).

Definition inner_body {python : Interpreter} (response_data : pyval) : outcome pyval :=
  match py_getitem response_data "message" with
  | Raise e => Raise e
  | Ret message =>
      match py_getitem message "content" with
      | Raise e => Raise e
      | Ret content =>
          match json_loads content with
          | Raise e => Raise e
          | Ret transactions => Ret (data_result transactions)
          end
      end
  end.

Definition inner_try {python : Interpreter} (response_data : pyval) : outcome pyval :=
  match inner_body response_data with
  | Ret v => Ret v
  | Raise e =>
      if isinstance e JSONDecodeError then
        Ret (error_result "Failed to parse model response as JSON")
      else Raise e
  end.

Definition or_handled (o : outcome pyval) : pyval :=
  match o with
  | Ret v => v
  | Raise e => handled e
  end.

Definition answer {python : Interpreter} (o : outcome Response) : pyval :=
  match o with
  | Raise e => handled e
  | Ret response =>
      match raise_for_status response with
      | Raise e => handled e
      | Ret _ =>
          match Response_json response with
          | Raise e => handled e
          | Ret response_data =>
              match py_contains "message" response_data with
              | Raise e => handled e
              | Ret true => or_handled (inner_try response_data)
              | Ret false => error_result "Unexpected response format from model"
              end
          end
      end
  end.

(** The request the function sends. *)
Definition the_request (environ : string -> option string) (text : string) : request :=
  mk_request (url environ) (payload text) 300.

(** The three outer [except] clauses. *)
Definition outer_handlers : list (handler pyval) :=
  [(Timeout,
     fun _ => ret (error_result "Request timed out connecting to Ollama"));
   (ConnectionError,
     fun _ => ret (error_result "Failed to connect to Ollama server"));
   (Exception_,
     fun e => ret (error_result ("Unexpected error: " ++ exn_str e)))].

(** The response passes [raise_for_status], its body is a JSON object
    whose [message] is an object, and [content] is what
    [response_data['message']['content']] evaluates to. *)
Definition message_content {python : Interpreter} (r : Response) (content : pyval) : Prop :=
  raise_for_status r = Ret tt /\
  exists d m,
    Response_json r = Ret (PDict d) /\
    dict_get d "message" = Some (PDict m) /\
    dict_get m "content" = Some content.


(** ** Concrete worlds and contents

    The inputs the scenarios are run on: an empty environment, a service
    that gives one fixed answer, and the reply of a chat endpoint that
    carries a given [content]. *)

Definition no_environ : string -> option string := fun _ => None.

(** An interpreter with room to spare: no text meets a limit.  The runs
    on concrete inputs below are in this interpreter, unless another one
    is named. *)
#[export] Instance roomy : Interpreter :=
  {| loads_stops := fun _ => None; response_json_stops := fun _ => None |}.

(** An interpreter whose stack lets [json.loads] enter 994 arrays and no
    more, as CPython 3.11 does under its default recursion limit of 1000
    when the call is one frame below the top of a script.  It is
    described on the texts that open arrays and do nothing else before
    they are too deep: entering the 995th array raises the
    [RecursionError]. *)
Fixpoint leading_brackets (s : string) : nat :=
  match s with
  | String "["%char s' => S (leading_brackets s')
  | _ => O
  end.

Definition short_stack : Interpreter :=
  {| loads_stops := fun doc =>
       if (994 <? leading_brackets doc)%nat
       then Some (TooDeep " while decoding a JSON array from a unicode string")
       else None;
     response_json_stops := fun _ => None |}.

(** Two thousand opening brackets. *)
Definition deep_content : string :=
  string_of_list_ascii (repeat "["%char 2000).

Definition service_returning (r : Response) : request -> outcome Response :=
  fun _ => Ret r.

Definition service_raising (e : exn) : request -> outcome Response :=
  fun _ => Raise e.

Definition http_response (status : Z) (phrase body : string) : Response :=
  mk_Response status phrase "http://host.docker.internal:11434/api/chat" body.

(** A [str] written as a JSON string. *)
Fixpoint json_quote_chars (s : string) : string :=
  match s with
  | EmptyString => EmptyString
  | String c s' =>
      if Ascii.eqb c dquote || Ascii.eqb c "\"%char then
        String "\"%char (String c (json_quote_chars s'))
      else if Ascii.eqb c "010"%char then
        String "\"%char (String "n"%char (json_quote_chars s'))
      else String c (json_quote_chars s')
  end.

Definition json_quote (s : string) : string :=
  String dquote (json_quote_chars s ++ String dquote EmptyString).

Definition chat_reply (content : string) : Response :=
  http_response 200 "OK"
    (dq "{`model`:`phi4`,`message`:{`role`:`assistant`,`content`:"
       ++ json_quote content ++ dq "},`done`:true}").

Definition statement_text : string :=
  "01-05-2024 Salary 500.00 CR 1500.00".

Definition scenario_A : string :=
  dq "{`transactions`:{`account_holder`:{`name`:`Jane Doe`,`account_number`:`1234567890`},`transactions`:[{`date`:`01-05-2024`,`amount`:500.0,`currency`:`INR`,`type`:`CREDIT`,`description`:`Salary`,`balance`:1500.0}]}}".


Definition scenario_C : string := "not valid json".

Definition scenario_D : string := dq "{`transactions`: []}".

Definition empty_statement : string :=
  dq "{`account_holder`:{`name`:`Jane Doe`,`account_number`:`1234567890`},`transactions`:[]}".

Definition scenario_E : string :=
  dq "{`account_holder`:{`name`:`Jane Doe`,`account_number`:`1234567890`},`transactions`:[{`date`:`01-05-2024`,`amount`:`abc`,`currency`:`INR`,`type`:`CREDIT`,`description`:`Salary`,`balance`:1500.0}]}".

Definition refund_statement : string :=
  dq "{`account_holder`:{`name`:`Jane Doe`,`account_number`:`1234567890`},`transactions`:[{`date`:`01-05-2024`,`amount`:500.0,`currency`:`INR`,`type`:`REFUND`,`description`:`Salary`,`balance`:1500.0}]}".

Definition jane_doe : pyval :=
  PDict [("name", PStr "Jane Doe"); ("account_number", PStr "1234567890")].

Definition salary (amount_value : pyval) (type_value : string) : list (string * pyval) :=
  [("date", PStr "01-05-2024"); ("amount", amount_value);
   ("currency", PStr "INR"); ("type", PStr type_value);
   ("description", PStr "Salary");
   ("balance", PFloat (FDec false 15000 (-1)))].

Definition five_hundred : pyval := PFloat (FDec false 5000 (-1)).

Definition statement_value (amount_value : pyval) (type_value : string) : pyval :=
  PDict [("account_holder", jane_doe);
         ("transactions", PList [PDict (salary amount_value type_value)])].

Definition jane_doe_statement : BankStatement :=
  mk_BankStatement (mk_AccountHolder "Jane Doe" "1234567890")
    [mk_Transaction "01-05-2024" (FDec false 5000 (-1)) "INR" "CREDIT"
       "Salary" (FDec false 15000 (-1))].

Definition chat_reply_data (content : string) : list (string * pyval) :=
  [("model", PStr "phi4");
   ("message", PDict [("role", PStr "assistant"); ("content", PStr content)]);
   ("done", PBool true)].

(** The function run on one reply of the service that carries [content]. *)
Definition run_on_content (content : string) : outcome pyval :=
  fst (call (process_bank_transactions no_environ
               (service_returning (chat_reply content)) statement_text)).

(** ** The rest of the application

    [extract_pdf_text] and the Streamlit script around the two functions.
    Beside the requests sent, these touch the files of the working
    directory and put elements on the page; the state of the application
    holds the three.  Writing a file is taken to succeed, and the calls
    that put an element on the page are taken not to raise. *)

Definition bytes : Type := list Byte.byte.

(** [pd.DataFrame(data)], when pandas builds it. *)
Inductive DataFrame : Type :=
| DataFrame_of (data : pyval).

(** The elements put on the page, in the order of the calls.  A [with]
    block puts its container, then what its body puts, then [st_end]. *)
Inductive ui_event : Type :=
| st_title (body : string)
| st_file_uploader (label : string) (accept_multiple_files : bool) (types : list string)
| st_spinner (text : string)
| st_subheader (body : string)
| st_text_area (label value : string) (height : Z)
| st_expander (label : string) (expanded : bool)
| st_json (body : pyval)
| st_error (body : string)
| st_success (body : string)
| st_dataframe (data : DataFrame)
| st_download_button (label data file_name mime : string)
| st_warning (body : string)
| st_end.

Record app_state : Type := mk_app_state {
  disk : list (string * bytes);
  sent : list request;
  shown : list ui_event
}.

Definition App (A : Type) : Type := app_state -> outcome A * app_state.

Definition app_ret {A : Type} (a : A) : App A := fun st => (Ret a, st).

Definition app_bind {A B : Type} (m : App A) (k : A -> App B) : App B :=
  fun st =>
    match m st with
    | (Ret a, st') => k a st'
    | (Raise e, st') => (Raise e, st')
    end.

Definition app_lift {A : Type} (o : outcome A) : App A := fun st => (o, st).

(** A computation that only sends requests, run in the application. *)
Definition app_requests {A : Type} (m : M A) : App A :=
  fun st =>
    let (o, log) := m (sent st) in
    (o, mk_app_state (disk st) log (shown st)).

Declare Scope app_scope.
Delimit Scope app_scope with app.
Notation "x <- m ;; k" := (app_bind m (fun x => k))
  (at level 61, m at next level, right associativity) : app_scope.
Notation "m ;;; k" := (app_bind m (fun _ => k))
  (at level 61, right associativity) : app_scope.

Definition app_handler (A : Type) : Type := (exn_class * (exn -> App A))%type.

Fixpoint app_select_handler {A : Type} (e : exn) (hs : list (app_handler A))
  : option (exn -> App A) :=
  match hs with
  | [] => None
  | (c, h) :: hs' => if isinstance e c then Some h else app_select_handler e hs'
  end.

Definition app_try_except {A : Type} (body : App A) (hs : list (app_handler A)) : App A :=
  fun st =>
    match body st with
    | (Ret a, st') => (Ret a, st')
    | (Raise e, st') =>
        match app_select_handler e hs with
        | Some h => h e st'
        | None => (Raise e, st')
        end
    end.

Definition show (e : ui_event) : App unit :=
  fun st => (Ret tt, mk_app_state (disk st) (sent st) (shown st ++ [e])).

(** [with container: body]: the container is closed however the body ends. *)
Definition with_block {A : Type} (container : ui_event) (body : App A) : App A :=
  fun st =>
    match body (snd (show container st)) with
    | (o, st') => (o, snd (show st_end st'))
    end.

(** *** Files *)

Fixpoint dict_remove {V : Type} (d : list (string * V)) (k : string)
  : list (string * V) :=
  match d with
  | [] => []
  | (k', v) :: d' =>
      if String.eqb k' k then dict_remove d' k else (k', v) :: dict_remove d' k
  end.

Definition no_such_file (path : string) : exn :=
  mk_exn OSError ("[Errno 2] No such file or directory: " ++ py_repr path).

(** [with open(path, "wb") as f: f.write(data)] *)
Definition write_file (path : string) (data : bytes) : App unit :=
  fun st => (Ret tt, mk_app_state (dict_set (disk st) path data) (sent st) (shown st)).

(** [os.remove(path)]: a [FileNotFoundError], which is an [OSError], when
    there is no such file. *)
Definition os_remove (path : string) : App unit :=
  fun st =>
    if dict_has (disk st) path then
      (Ret tt, mk_app_state (dict_remove (disk st) path) (sent st) (shown st))
    else (Raise (no_such_file path), st).

(** *** Python values, continued *)

(** The truth value of a value in a condition. *)
Definition truthy (v : pyval) : bool :=
  match v with
  | PNone => false
  | PBool b => b
  | PInt n => negb (n =? 0)%Z
  | PFloat (FDec _ m _) => negb (m =? 0)%N
  | PFloat _ => true
  | PStr s => negb (String.eqb s "")
  | PList l => match l with [] => false | _ :: _ => true end
  | PDict d => match d with [] => false | _ :: _ => true end
  end.

Section Application.

Context {python : Interpreter}.
Variable environ : string -> option string.
Variable service : request -> outcome Response.

(** Marker: building the converter gives it or raises; the converter
    gives the text of a PDF file from the bytes of the file, or raises.
    This stands for [PdfConverter(...)], for the call of the converter on
    a path and for [text_from_rendered]. *)
Variable marker : outcome (bytes -> outcome string).

(** pandas: the exception that [pd.DataFrame(data)] raises, if any. *)
Variable pandas_rejects : pyval -> option exn.

(** [json.dumps(obj, indent=2)] *)
Variable json_dumps : pyval -> outcome string.

(** [str(v)] for a value that is not a [str]. *)
Variable str_of_other : pyval -> string.

Definition pd_DataFrame (data : pyval) : outcome DataFrame :=
  match pandas_rejects data with
  | Some e => Raise e
  | None => Ret (DataFrame_of data)
  end.

(** A value inside an f-string. *)
Definition format_value (v : pyval) : string :=
  match v with
  | PStr s => s
  | _ => str_of_other v
  end.

(** The converter called on a path: it reads the file. *)
Definition convert (converter : bytes -> outcome string) (path : string) : App string :=
  fun st =>
    match dict_get (disk st) path with
    | Some data => (converter data, st)
    | None => (Raise (no_such_file path), st)
    end.

Local Open Scope app_scope.

(** The body of the [for] loop of [extract_pdf_text], over the files that
    are left, with the text so far. *)
Fixpoint extract_loop (converter : bytes -> outcome string) (pdf_files : list bytes)
  (text : string) : App string :=
  match pdf_files with
  | [] => app_ret text
  | uploaded_file :: rest =>
      write_file "temp.pdf" uploaded_file ;;;
      extracted_text <- convert converter "temp.pdf" ;;
      extract_loop converter rest (text ++ extracted_text)
  end.

Definition extract_pdf_text (pdf_files : list bytes) : App string :=
  converter <- app_lift marker ;;
  text <- extract_loop converter pdf_files "" ;;
  os_remove "temp.pdf" ;;;
  app_ret text.

(** The last part of the script: what is put on the page for [result]. *)
Definition report (result : pyval) : App unit :=
  has_error <- app_lift (py_contains "error" result) ;;
  if has_error : bool then
    message <- app_lift (py_getitem result "error") ;;
    show (st_error ("Error processing transactions: " ++ format_value message))
  else
    show (st_success "Successfully processed transactions") ;;;
    has_data <- app_lift (py_contains "data" result) ;;
    condition <-
      (if has_data : bool then
         data <- app_lift (py_getitem result "data") ;; app_ret (truthy data)
       else app_ret false) ;;
    if condition : bool then
      app_try_except
        (data <- app_lift (py_getitem result "data") ;;
         rows <- app_lift (py_getitem data "transactions") ;;
         df <- app_lift (pd_DataFrame rows) ;;
         show (st_subheader "Transactions") ;;;
         with_block (st_expander "View Transactions" true) (show (st_dataframe df)) ;;;
         dumped <- app_lift (json_dumps result) ;;
         show (st_download_button "Download JSON" dumped
                 "transactions.json" "application/json"))
        [(Exception_,
           fun e => show (st_error ("Error creating dataframe: " ++ exn_str e)))]
    else show (st_warning "No transactions were extracted from the document").

(** The script: what runs each time the page is drawn, given the files
    that the uploader returns. *)
Definition script (uploaded_files : list bytes) : App unit :=
  show (st_title "Bank Transaction PDF Parser") ;;;
  show (st_file_uploader "Upload Bank Statement PDFs" true ["pdf"%string]) ;;;
  match uploaded_files with
  | [] => app_ret tt
  | _ :: _ =>
      with_block (st_spinner "Processing PDFs...")
        (extracted_text <- extract_pdf_text uploaded_files ;;
         result <- app_requests (process_bank_transactions environ service extracted_text) ;;
         show (st_subheader "Extracted Text") ;;;
         show (st_text_area "" extracted_text 200) ;;;
         show (st_subheader "API Response") ;;;
         with_block (st_expander "View API Response" true) (show (st_json result)) ;;;
         report result)
  end.

End Application.

(** *** What the properties of the application are stated with *)

(** The texts one after the other, with nothing between them. *)
Definition concat_texts (texts : list string) : string :=
  fold_right String.append "" texts.

(** The state with [temp.pdf] removed, and with [temp.pdf] holding [data]. *)
Definition without_temp (st : app_state) : app_state :=
  mk_app_state (dict_remove (disk st) "temp.pdf") (sent st) (shown st).

Definition with_temp (data : bytes) (st : app_state) : app_state :=
  mk_app_state (dict_set (disk st) "temp.pdf" data) (sent st) (shown st).

(** [st'] differs from [st] in the file [temp.pdf] at most. *)
Definition same_but_temp (st st' : app_state) : Prop :=
  sent st' = sent st
  /\ shown st' = shown st
  /\ forall path, path <> "temp.pdf" -> dict_get (disk st') path = dict_get (disk st) path.

(** The state with more elements on the page. *)
Definition showing (events : list ui_event) (st : app_state) : app_state :=
  mk_app_state (disk st) (sent st) (shown st ++ events).

(** What the script puts on the page before it looks at the result. *)
Definition page_head (extracted_text : string) (result : pyval) : list ui_event :=
  [st_title "Bank Transaction PDF Parser";
   st_file_uploader "Upload Bank Statement PDFs" true ["pdf"%string];
   st_spinner "Processing PDFs...";
   st_subheader "Extracted Text";
   st_text_area "" extracted_text 200;
   st_subheader "API Response";
   st_expander "View API Response" true;
   st_json result;
   st_end].

(** The state the script leaves when the files convert: [temp.pdf] is
    gone, one request was sent, and the page holds, after what was there,
    the head, then [events], then the end of the spinner. *)
Definition page_after (environ : string -> option string) (st : app_state)
  (text : string) (result : pyval) (events : list ui_event) : app_state :=
  mk_app_state (dict_remove (disk st) "temp.pdf")
    (sent st ++ [the_request environ text])
    (shown st ++ page_head text result ++ events ++ [st_end]).

(** What [report] puts on the page for a data result. *)
Definition data_events (pandas_rejects : pyval -> option exn)
  (json_dumps : pyval -> outcome string) (v : pyval) : list ui_event :=
  st_success "Successfully processed transactions"
  :: if truthy v then
       match py_getitem v "transactions" with
       | Raise e => [st_error ("Error creating dataframe: " ++ exn_str e)]
       | Ret rows =>
           match pandas_rejects rows with
           | Some e => [st_error ("Error creating dataframe: " ++ exn_str e)]
           | None =>
               [st_subheader "Transactions";
                st_expander "View Transactions" true;
                st_dataframe (DataFrame_of rows);
                st_end]
               ++ match json_dumps (data_result v) with
                  | Ret dumped =>
                      [st_download_button "Download JSON" dumped
                         "transactions.json" "application/json"]
                  | Raise e => [st_error ("Error creating dataframe: " ++ exn_str e)]
                  end
           end
       end
     else [st_warning "No transactions were extracted from the document"].

(** The five kinds of error result. *)
Definition known_error (res : pyval) : Prop :=
  res = error_result "Request timed out connecting to Ollama"
  \/ res = error_result "Failed to connect to Ollama server"
  \/ res = error_result "Unexpected response format from model"
  \/ res = error_result "Failed to parse model response as JSON"
  \/ exists detail, res = error_result ("Unexpected error: " ++ detail).

(** *** Stand-ins for the libraries, for running the application

    A converter that gives the bytes of the file as its text and refuses
    an empty file; pandas accepting lists only; fixed texts for
    [json.dumps] and for [str]. *)

Definition sample_converter : bytes -> outcome string :=
  fun data =>
    match data with
    | [] => Raise (mk_exn ValueError "empty file")
    | _ :: _ => Ret (string_of_list_byte data)
    end.

Definition sample_files : list bytes :=
  [list_byte_of_string "Opening balance 1000.00 ";
   list_byte_of_string "01-05-2024 Salary 500.00 CR 1500.00"].

Definition sample_texts : list string :=
  ["Opening balance 1000.00 "; "01-05-2024 Salary 500.00 CR 1500.00"].

Definition sample_pandas : pyval -> option exn :=
  fun data =>
    match data with
    | PList _ => None
    | _ => Some (mk_exn ValueError "DataFrame constructor not properly called!")
    end.

Definition sample_dumps : pyval -> outcome string := fun _ => Ret "{}".

Definition sample_str : pyval -> string := type_name.

Definition empty_state : app_state := mk_app_state [] [] [].

(** A scan result is [good] for the text it was run on when it leaves no
    more text than it was given and is not a failure for lack of fuel. *)
Definition good {A : Type} (s : list ascii) (r : Json.scan A) : Prop :=
  match r with
  | Json.Found _ rest _ => length rest <= length s
  | Json.Fail msg _ => msg <> "out of fuel"
  end.

(** Case analysis on the eight bits of a character. *)
Ltac each_char c := destruct c as [[] [] [] [] [] [] [] []].

(** * Properties *)

(** ** The decoder has fuel enough *)

Lemma good_mono {A : Type} (s s' : list ascii) (r : Json.scan A) :
  length s' <= length s -> good s' r -> good s r.
Proof. destruct r; simpl; lia || auto. Qed.

Lemma good_map {A B : Type} (f : A -> B) (s : list ascii) (r : Json.scan A) :
  good s r -> good s (Json.scan_map f r).
Proof. destruct r; simpl; auto. Qed.

Lemma skip_ws_le (s : list ascii) :
  forall pos, length (fst (Json.skip_ws s pos)) <= length s.
Proof.
  induction s as [| c s IH]; simpl; intros pos; [lia|].
  destruct (Json.is_ws c); simpl; [specialize (IH (S pos)); lia | lia].
Qed.

Lemma take_digits_le (s : list ascii) :
  length (snd (Json.take_digits s)) <= length s.
Proof.
  induction s as [| c s IH]; simpl; [lia|].
  destruct (Json.is_digit c); simpl; [| lia].
  destruct (Json.take_digits s); simpl in *; lia.
Qed.

Lemma scanstring_good (n : nat) :
  forall s, length s <= n ->
  forall begin pos acc, good s (Json.scanstring begin s pos acc).
Proof.
  induction n as [| n IH]; intros s Hn begin pos acc.
  - destruct s; [| simpl in Hn; lia]. simpl. discriminate.
  - destruct s as [| c s1]; [simpl; discriminate|].
    cbn [Json.scanstring].
    destruct (Ascii.eqb c "034"); [simpl; lia|].
    destruct (Ascii.eqb c "\").
    + destruct s1 as [| e s2]; [simpl; discriminate|].
      destruct (Ascii.eqb e "u").
      * destruct (Json.cp_length s2 <=? 4)%nat; [simpl; discriminate|].
        destruct s2 as [| h1 [| h2 [| h3 [| h4 s3]]]]; try (simpl; discriminate).
        destruct (Json.hex4 h1 h2 h3 h4); [| simpl; discriminate].
        cbv zeta.
        assert (Hlone : forall p a, good (c :: e :: h1 :: h2 :: h3 :: h4 :: s3)
                                      (Json.scanstring begin s3 p a)).
        { intros p a. apply (good_mono _ s3); [simpl; lia|].
          apply IH. simpl in Hn. lia. }
        destruct (Json.is_high_surrogate n0 && (7 <=? Json.cp_length s3)%nat); [| apply Hlone].
        destruct s3 as [| b [| u [| g1 [| g2 [| g3 [| g4 s4]]]]]]; try apply Hlone.
        destruct (Ascii.eqb b "\" && Ascii.eqb u "u"); [| apply Hlone].
        destruct (Json.hex4 g1 g2 g3 g4); [| simpl; discriminate].
        destruct (Json.is_low_surrogate n1); [| apply Hlone].
        apply (good_mono _ s4); [simpl; lia|].
        apply IH. simpl in Hn. lia.
      * destruct (Json.unescape e); [| simpl; discriminate].
        apply (good_mono _ s2); [simpl; lia|].
        apply IH. simpl in Hn. lia.
    + destruct (Nat.leb (nat_of_ascii c) 31); [simpl; discriminate|].
      apply (good_mono _ s1); [simpl; lia|].
      apply IH. simpl in Hn. lia.
Qed.

Lemma strip_prefix_le (p : string) :
  forall s rest, Json.strip_prefix p s = Some rest -> length rest <= length s.
Proof.
  induction p as [| c p IH]; simpl; intros s rest H.
  - injection H as <-. lia.
  - destruct s as [| d s]; [discriminate H|].
    destruct (Ascii.eqb c d); [| discriminate H].
    apply IH in H. simpl. lia.
Qed.

Lemma match_literal_good (ls : list (string * pyval)) (s : list ascii) (pos : nat) :
  forall r, Json.match_literal ls s pos = Some r -> good s r.
Proof.
  induction ls as [| [w v] ls IH]; simpl; intros r H; [discriminate H|].
  destruct (Json.strip_prefix w s) as [rest|] eqn:E; [| exact (IH r H)].
  injection H as <-. simpl. exact (strip_prefix_le w s rest E).
Qed.

Lemma take_sign_le (s : list ascii) : length (snd (Json.take_sign s)) <= length s.
Proof.
  destruct s as [| c s]; simpl; [lia|]. each_char c; simpl; lia.
Qed.

Lemma take_int_le (s ids rest : list ascii) :
  Json.take_int s = Some (ids, rest) -> length rest <= length s.
Proof.
  destruct s as [| c s']; simpl; intros H; [discriminate H|].
  assert (Hz : Some (["0"%char], s') = Some (ids, rest) -> length rest <= S (length s')).
  { intros E. injection E as _ <-. lia. }
  assert (Hd' : (if Json.is_digit c then Some (Json.take_digits (c :: s')) else None)
                = Some (ids, rest) -> length rest <= S (length s')).
  { intros E. destruct (Json.is_digit c); [| discriminate E].
    pose proof (take_digits_le (c :: s')) as L.
    assert (E' : Json.take_digits (c :: s') = (ids, rest)) by congruence.
    rewrite E' in L. exact L. }
  revert H. each_char c; first [exact Hz | exact Hd'].
Qed.

Lemma take_frac_le (s : list ascii) : length (snd (Json.take_frac s)) <= length s.
Proof.
  destruct s as [| d s]; simpl; [lia|].
  assert (Hf : forall c s', s = c :: s' ->
            length (snd (if Json.is_digit c then Json.take_digits (c :: s')
                         else ([], d :: c :: s'))) <= S (length s)).
  { intros c s' ->. destruct (Json.is_digit c); [| simpl; lia].
    pose proof (take_digits_le (c :: s')). simpl in *. lia. }
  each_char d; try (simpl; lia).
  destruct s as [| c s']; [simpl; lia|]. exact (Hf c s' eq_refl).
Qed.

Lemma take_exp_le (s : list ascii) : length (snd (Json.take_exp s)) <= length s.
Proof.
  destruct s as [| e s']; simpl; [lia|].
  destruct (Ascii.eqb e "e" || Ascii.eqb e "E"); [| simpl; lia].
  assert (Hs : forall (eneg : bool) (n : nat) (t : list ascii),
             length t <= length s' ->
             length (snd (match Json.take_digits t with
                          | ([], _) => (None, e :: s')
                          | ((_ :: _) as ds, rest) =>
                              (Some (eneg, ds, (1 + n + length ds)%nat), rest)
                          end)) <= S (length s')).
  { intros eneg n t Ht. pose proof (take_digits_le t) as L.
    destruct (Json.take_digits t) as [[| d ds] rest]; simpl in *; lia. }
  destruct s' as [| c t]; [simpl; lia|].
  each_char c; try (apply Hs; simpl; lia).
Qed.

Lemma match_number_good (s : list ascii) (pos : nat) : good s (Json.match_number s pos).
Proof.
  unfold Json.match_number.
  pose proof (take_sign_le s) as L0.
  destruct (Json.take_sign s) as [neg s0]; simpl in L0.
  destruct (Json.take_int s0) as [[ids s1]|] eqn:E1; [| simpl; discriminate].
  apply take_int_le in E1.
  pose proof (take_frac_le s1) as L2.
  destruct (Json.take_frac s1) as [fds s2]; simpl in L2.
  pose proof (take_exp_le s2) as L3.
  destruct (Json.take_exp s2) as [exp s3]; simpl in L3.
  destruct fds, exp as [[[eneg eds] exp_len]|]; simpl; lia.
Qed.

Lemma skip_ws_eq_le (s s1 : list ascii) (pos p1 : nat) :
  Json.skip_ws s pos = (s1, p1) -> length s1 <= length s.
Proof. intros E. pose proof (skip_ws_le s pos) as L. rewrite E in L. exact L. Qed.

Lemma scan_good (fuel : nat) :
  (forall s pos, 2 * length s + 1 <= fuel -> good s (Json.scan_once fuel s pos))
  /\ (forall s pos acc, 2 * length s + 2 <= fuel ->
        good s (Json.parse_object fuel s pos acc))
  /\ (forall s pos acc, 2 * length s + 2 <= fuel ->
        good s (Json.parse_array fuel s pos acc)).
Proof.
  induction fuel as [| fuel (IHv & IHo & IHa)].
  - repeat split; intros; lia.
  - repeat split.
    + intros s pos Hf. cbn [Json.scan_once].
      destruct s as [| c s']; [simpl; discriminate|].
      destruct (Ascii.eqb c "034").
      { apply good_map. apply (good_mono _ s'); [simpl; lia|].
        exact (scanstring_good (length s') s' (le_n _) pos (S pos) []). }
      destruct (Ascii.eqb c "{").
      { destruct (Json.skip_ws s' (S pos)) as [s1 p1] eqn:E.
        apply skip_ws_eq_le in E.
        assert (Ho : forall acc, good (c :: s') (Json.parse_object fuel s1 p1 acc)).
        { intros acc. apply (good_mono _ s1); [simpl; lia|].
          apply IHo. simpl in Hf. lia. }
        destruct s1 as [| d s2]; [apply Ho|].
        each_char d; try apply Ho. simpl in *. lia. }
      destruct (Ascii.eqb c "[").
      { destruct (Json.skip_ws s' (S pos)) as [s1 p1] eqn:E.
        apply skip_ws_eq_le in E.
        assert (Ha : forall acc, good (c :: s') (Json.parse_array fuel s1 p1 acc)).
        { intros acc. apply (good_mono _ s1); [simpl; lia|].
          apply IHa. simpl in Hf. lia. }
        destruct s1 as [| d s2]; [apply Ha|].
        each_char d; try apply Ha. simpl in *. lia. }
      destruct (Json.match_literal Json.literals (c :: s') pos) as [r|] eqn:E.
      * exact (match_literal_good _ _ _ r E).
      * apply match_number_good.
    + intros s pos acc Hf. cbn [Json.parse_object].
      destruct s as [| q s1]; [simpl; discriminate|].
      assert (Hkey :
        good (q :: s1)
          match Json.scanstring pos s1 (S pos) [] with
          | Json.Found key s2 p2 =>
              let (s3, p3) := Json.skip_ws s2 p2 in
              match s3 with
              | ":"%char :: s4 =>
                  let (s5, p5) := Json.skip_ws s4 (S p3) in
                  match Json.scan_once fuel s5 p5 with
                  | Json.Found v s6 p6 =>
                      let acc' := dict_set acc key v in
                      let (s7, p7) := Json.skip_ws s6 p6 in
                      match s7 with
                      | "}"%char :: s8 => Json.Found (PDict acc') s8 (S p7)
                      | ","%char :: s8 =>
                          let (s9, p9) := Json.skip_ws s8 (S p7) in
                          Json.parse_object fuel s9 p9 acc'
                      | _ => Json.Fail "Expecting ',' delimiter" p7
                      end
                  | Json.Fail msg p => Json.Fail msg p
                  end
              | _ => Json.Fail "Expecting ':' delimiter" p3
              end
          | Json.Fail msg p => Json.Fail msg p
          end).
      { pose proof (scanstring_good (length s1) s1 (le_n _) pos (S pos) []) as Gk.
        destruct (Json.scanstring pos s1 (S pos) []) as [key s2 p2 | msg p];
          [| exact Gk].
        simpl in Gk.
        destruct (Json.skip_ws s2 p2) as [s3 p3] eqn:E3. apply skip_ws_eq_le in E3.
        destruct s3 as [| d s4]; [simpl; discriminate|].
        assert (Hval :
          good (q :: s1)
            (let (s5, p5) := Json.skip_ws s4 (S p3) in
             match Json.scan_once fuel s5 p5 with
             | Json.Found v s6 p6 =>
                 let acc' := dict_set acc key v in
                 let (s7, p7) := Json.skip_ws s6 p6 in
                 match s7 with
                 | "}"%char :: s8 => Json.Found (PDict acc') s8 (S p7)
                 | ","%char :: s8 =>
                     let (s9, p9) := Json.skip_ws s8 (S p7) in
                     Json.parse_object fuel s9 p9 acc'
                 | _ => Json.Fail "Expecting ',' delimiter" p7
                 end
             | Json.Fail msg p => Json.Fail msg p
             end)).
        { destruct (Json.skip_ws s4 (S p3)) as [s5 p5] eqn:E5. apply skip_ws_eq_le in E5.
          simpl in E3, Hf.
          assert (Gv : good s5 (Json.scan_once fuel s5 p5)) by (apply IHv; lia).
          destruct (Json.scan_once fuel s5 p5) as [v s6 p6 | msg p]; [| exact Gv].
          simpl in Gv. cbv zeta.
          destruct (Json.skip_ws s6 p6) as [s7 p7] eqn:E7. apply skip_ws_eq_le in E7.
          destruct s7 as [| d7 s8]; [simpl; discriminate|].
          assert (Hnext :
            good (q :: s1)
              (let (s9, p9) := Json.skip_ws s8 (S p7) in
               Json.parse_object fuel s9 p9 (dict_set acc key v))).
          { destruct (Json.skip_ws s8 (S p7)) as [s9 p9] eqn:E9.
            apply skip_ws_eq_le in E9. simpl in E7.
            apply (good_mono _ s9); [simpl; lia|]. apply IHo. lia. }
          each_char d7; try (simpl; discriminate); try exact Hnext.
          simpl in *. lia. }
        each_char d; try (simpl; discriminate). exact Hval. }
      each_char q; try (simpl; discriminate). exact Hkey.
    + intros s pos acc Hf. cbn [Json.parse_array].
      assert (Gv : good s (Json.scan_once fuel s pos)) by (apply IHv; lia).
      destruct (Json.scan_once fuel s pos) as [v s1 p1 | msg p]; [| exact Gv].
      simpl in Gv.
      destruct (Json.skip_ws s1 p1) as [s2 p2] eqn:E2. apply skip_ws_eq_le in E2.
      destruct s2 as [| d s3]; [simpl; discriminate|].
      assert (Hnext :
        good s (let (s4, p4) := Json.skip_ws s3 (S p2) in
                Json.parse_array fuel s4 p4 (v :: acc))).
      { destruct (Json.skip_ws s3 (S p2)) as [s4 p4] eqn:E4.
        apply skip_ws_eq_le in E4. simpl in E2.
        apply (good_mono _ s4); [lia|]. apply IHa. lia. }
      each_char d; try (simpl; discriminate); try exact Hnext.
      simpl in *. lia.
Qed.

(** [parse] never runs out of fuel. *)
Theorem parse_fueled (doc : string) (e : Json.decode_error) :
  Json.parse doc = inr e -> Json.err_msg e <> "out of fuel".
Proof.
  unfold Json.parse.
  destruct (Json.strip_prefix _ _); [intros H; injection H as <-; simpl; discriminate|].
  destruct (Json.skip_ws (list_ascii_of_string doc) 0) as [s0 p0] eqn:E0.
  apply skip_ws_eq_le in E0.
  pose proof (proj1 (scan_good (2 * length (list_ascii_of_string doc) + 4)) s0 p0) as G.
  destruct (Json.scan_once _ s0 p0) as [v s1 p1 | msg p].
  - destruct (Json.skip_ws s1 p1) as [[| c s2] p2]; intros H; [discriminate H|].
    injection H as <-. simpl. discriminate.
  - intros H. injection H as <-. simpl. apply G. lia.
Qed.


(** ** The exception hierarchy *)

Lemma issubclass_refl (c : exn_class) : issubclass c c = true.
Proof. destruct c; reflexivity. Qed.

Lemma issubclass_Exception (c : exn_class) : issubclass c Exception_ = true.
Proof. destruct c; reflexivity. Qed.

Lemma isinstance_Exception (e : exn) : isinstance e Exception_ = true.
Proof. apply issubclass_Exception. Qed.

(** A connect timeout is both a timeout and a connection error; a read
    timeout is a timeout only; an HTTP error is neither. *)
Lemma timeout_classes (c : exn_class) :
  issubclass c Timeout = true <-> c = Timeout \/ c = ConnectTimeout \/ c = ReadTimeout.
Proof.
  split.
  - destruct c; cbv; intros H; try discriminate H; auto.
  - intros [-> | [-> | ->]]; reflexivity.
Qed.

Lemma connection_classes (c : exn_class) :
  issubclass c ConnectionError = true <->
  c = ConnectionError \/ c = ProxyError \/ c = SSLError \/ c = ConnectTimeout.
Proof.
  split.
  - destruct c; cbv; intros H; try discriminate H; auto.
  - intros [-> | [-> | [-> | ->]]]; reflexivity.
Qed.

Section Summary.

Context {python : Interpreter}.
Variable environ : string -> option string.
Variable service : request -> outcome Response.
Variable text : string.

Lemma outer_handlers_total (e : exn) (log : list request) :
  match select_handler e outer_handlers with
  | Some h => h e log
  | None => (Raise e, log)
  end = (Ret (handled e), log).
Proof.
  unfold outer_handlers, handled; simpl.
  destruct (isinstance e Timeout); [reflexivity|].
  destruct (isinstance e ConnectionError); [reflexivity|].
  rewrite isinstance_Exception. reflexivity.
Qed.

(** The function sends one request and returns [answer] of its outcome:
    it never raises. *)
Lemma call_process_bank_transactions :
  call (process_bank_transactions environ service text)
  = (Ret (answer (service (the_request environ text))), [the_request environ text]).
Proof.
  unfold call, process_bank_transactions, try_except at 1.
  fold outer_handlers.
  unfold bind at 1, requests_post. fold (the_request environ text). simpl app.
  unfold answer.
  destruct (service (the_request environ text)) as [response | e];
    [| apply outer_handlers_total].
  unfold bind at 1, lift at 1.
  destruct (raise_for_status response) as [[] | e]; [| apply outer_handlers_total].
  unfold bind at 1, lift at 1.
  destruct (Response_json response) as [response_data | e]; [| apply outer_handlers_total].
  unfold bind at 1, lift at 1.
  destruct (py_contains "message" response_data) as [[|] | e];
    [| reflexivity | apply outer_handlers_total].
  unfold try_except, bind, lift, inner_try, inner_body, or_handled, ret.
  destruct (py_getitem response_data "message") as [message | e]; simpl.
  - destruct (py_getitem message "content") as [content | e]; simpl.
    + destruct (json_loads content) as [transactions | e]; simpl; [reflexivity|].
      destruct (isinstance e JSONDecodeError); simpl; [reflexivity|].
      apply outer_handlers_total.
    + destruct (isinstance e JSONDecodeError); simpl; [reflexivity|].
      apply outer_handlers_total.
  - destruct (isinstance e JSONDecodeError); simpl; [reflexivity|].
    apply outer_handlers_total.
Qed.

End Summary.

(** ** Shape of the results *)

Lemma data_is_not_error (v : pyval) (msg : string) : data_result v <> error_result msg.
Proof. unfold data_result, error_result. intros H. discriminate H. Qed.


Lemma error_has_error_key (msg : string) : py_contains "error" (error_result msg) = Ret true.
Proof. reflexivity. Qed.

Lemma handled_is_error (e : exn) : exists msg, handled e = error_result msg.
Proof.
  unfold handled.
  destruct (isinstance e Timeout); [eauto|].
  destruct (isinstance e ConnectionError); eauto.
Qed.

Lemma inner_try_shape {python : Interpreter} (response_data : pyval) :
  match inner_try response_data with
  | Ret res => (exists v, res = data_result v) \/ (exists msg, res = error_result msg)
  | Raise _ => True
  end.
Proof.
  unfold inner_try, inner_body.
  destruct (py_getitem response_data "message") as [message | e].
  - destruct (py_getitem message "content") as [content | e].
    + destruct (json_loads content) as [t | e]; [left; eauto|].
      destruct (isinstance e JSONDecodeError); [right; eauto | exact I].
    + destruct (isinstance e JSONDecodeError); [right; eauto | exact I].
  - destruct (isinstance e JSONDecodeError); [right; eauto | exact I].
Qed.

Lemma answer_shape {python : Interpreter} (o : outcome Response) :
  (exists v, answer o = data_result v) \/ (exists msg, answer o = error_result msg).
Proof.
  unfold answer.
  destruct o as [response | e]; [| right; apply handled_is_error].
  destruct (raise_for_status response) as [[] | e]; [| right; apply handled_is_error].
  destruct (Response_json response) as [d | e]; [| right; apply handled_is_error].
  destruct (py_contains "message" d) as [[|] | e];
    [| right; eauto | right; apply handled_is_error].
  pose proof (inner_try_shape d) as H.
  destruct (inner_try d) as [res | e]; simpl; [exact H | right; apply handled_is_error].
Qed.

(** ** Following the content through the inner [try] *)

Lemma answer_of_content {python : Interpreter} (r : Response) (content : pyval) :
  message_content r content ->
  answer (Ret r) =
  match json_loads content with
  | Ret transactions => data_result transactions
  | Raise e =>
      if isinstance e JSONDecodeError then
        error_result "Failed to parse model response as JSON"
      else handled e
  end.
Proof.
  intros [Hstatus (d & m & Hjson & Hmessage & Hcontent)].
  unfold answer. rewrite Hstatus, Hjson.
  unfold py_contains, dict_has. rewrite Hmessage.
  unfold inner_try, inner_body, py_getitem. rewrite Hmessage, Hcontent.
  destruct (json_loads content) as [t | e]; [reflexivity|].
  destruct (isinstance e JSONDecodeError); reflexivity.
Qed.

Lemma answer_of_parsed_content {python : Interpreter} (r : Response) (doc : string) (v : pyval) :
  message_content r (PStr doc) ->
  Json.decode doc = inl v ->
  answer (Ret r) = data_result v.
Proof.
  intros Hc Hd. rewrite (answer_of_content r (PStr doc) Hc).
  unfold json_loads. rewrite Hd. reflexivity.
Qed.

Lemma answer_of_unparsed_content {python : Interpreter} (r : Response) (doc : string)
  (f : Json.failure) :
  message_content r (PStr doc) ->
  Json.decode doc = inr f ->
  answer (Ret r)
  = error_result
      match f with
      | Json.Invalid _ => "Failed to parse model response as JSON"
      | Json.Stopped x => "Unexpected error: " ++ exn_str (excess_exn x)
      end.
Proof.
  intros Hc Hd. rewrite (answer_of_content r (PStr doc) Hc).
  unfold json_loads. rewrite Hd.
  destruct f as [e | [doing | limit digits]]; reflexivity.
Qed.

(** A body that is a JSON object without a [message] key is reported as a
    response of unexpected format. *)
Lemma answer_without_message_key {python : Interpreter} (r : Response) (d : list (string * pyval)) :
  raise_for_status r = Ret tt ->
  Response_json r = Ret (PDict d) ->
  dict_get d "message" = None ->
  answer (Ret r) = error_result "Unexpected response format from model".
Proof.
  intros Hs Hj Hm. unfold answer. rewrite Hs, Hj.
  unfold py_contains, dict_has. rewrite Hm. reflexivity.
Qed.

(** ** Claims *)

(** C2, as stated, fails.  Two thousand opening brackets are not JSON,
    but in an interpreter whose stack is used up before the text ends,
    [json.loads] raises a [RecursionError], which the inner clause does
    not handle: the result is the one of the catch-all clause, not the
    parse-error result. *)
Lemma deep_content_is_not_a_parse_error :
  Json.parse deep_content = inr (Json.mk_decode_error "Expecting value" 2000)
  /\ call (process_bank_transactions (python := short_stack) no_environ
             (service_returning (chat_reply deep_content)) statement_text)
     = (Ret (error_result
               "Unexpected error: maximum recursion depth exceeded while decoding a JSON array from a unicode string"),
        [the_request no_environ statement_text])
  /\ error_result
       "Unexpected error: maximum recursion depth exceeded while decoding a JSON array from a unicode string"
     <> error_result "Failed to parse model response as JSON".
Proof.
  split; [vm_compute; reflexivity|]. split; [| intros H; discriminate H].
  rewrite (call_process_bank_transactions (python := short_stack)).
  vm_compute. reflexivity.
Qed.

(** C2, amended.  When [json.loads] does not return on the content
    string, the function returns an error result: the parse-error result
    [{"error": "Failed to parse model response as JSON"}] when the
    exception is a [JSONDecodeError], and [{"error": "Unexpected error:
    ..."}] with the text of the exception when the decoder met a limit of
    the interpreter.  In both cases it returns (it does not raise), the
    result is not a [{"data": ...}] result, and it differs from what a
    timeout or a connection failure is turned into. *)
Theorem undecodable_content_is_an_error_result :
  forall {python : Interpreter} (environ : string -> option string)
         (service : request -> outcome Response)
         (text : string) (r : Response) (doc : string) (f : Json.failure),
    service (the_request environ text) = Ret r ->
    message_content r (PStr doc) ->
    Json.decode doc = inr f ->
    let result :=
      error_result
        match f with
        | Json.Invalid _ => "Failed to parse model response as JSON"
        | Json.Stopped x => "Unexpected error: " ++ exn_str (excess_exn x)
        end in
    call (process_bank_transactions environ service text)
    = (Ret result, [the_request environ text])
    /\ (forall v, result <> data_result v)
    /\ (forall e', isinstance e' Timeout = true \/ isinstance e' ConnectionError = true ->
          handled e' <> result).
Proof.
  intros python environ service text r doc f Hr Hc Hd result.
  rewrite call_process_bank_transactions, Hr.
  rewrite (answer_of_unparsed_content r doc f Hc Hd).
  split; [reflexivity|]. split.
  - intros v H. symmetry in H. exact (data_is_not_error _ _ H).
  - intros e' He'. unfold handled, result.
    destruct (isinstance e' Timeout);
      [destruct f; intros H; discriminate H|].
    destruct (isinstance e' ConnectionError);
      [destruct f; intros H; discriminate H|].
    destruct He' as [He' | He']; discriminate He'.
Qed.

Lemma undecodable_content_is_an_error_result_witness :
  call (process_bank_transactions no_environ
          (service_returning (chat_reply scenario_C)) statement_text)
  = (Ret (error_result "Failed to parse model response as JSON"),
     [the_request no_environ statement_text])
  /\ (forall v, error_result "Failed to parse model response as JSON" <> data_result v)
  /\ (forall e', isinstance e' Timeout = true \/ isinstance e' ConnectionError = true ->
        handled e' <> error_result "Failed to parse model response as JSON").
Proof.
  apply (undecodable_content_is_an_error_result no_environ
           (service_returning (chat_reply scenario_C)) statement_text
           (chat_reply scenario_C) scenario_C
           (Json.Invalid (Json.mk_decode_error "Expecting value" 0))).
  - reflexivity.
  - split; [reflexivity|].
    exists [("model", PStr "phi4");
            ("message", PDict [("role", PStr "assistant"); ("content", PStr scenario_C)]);
            ("done", PBool true)],
           [("role", PStr "assistant"); ("content", PStr scenario_C)].
    repeat split; vm_compute; reflexivity.
  - vm_compute; reflexivity.
Defined.

(** C3.  Whatever the text and whatever the service does (a response of
    any status and body, or any exception out of [requests.post]), the
    function returns a dictionary, [{"data": ...}] or [{"error": <str>}]:
    no exception leaves it. *)
Theorem always_a_structured_result :
  forall {python : Interpreter} (environ : string -> option string) (service : request -> outcome Response)
         (text : string),
  exists res,
    fst (call (process_bank_transactions environ service text)) = Ret res
    /\ ((exists v, res = data_result v) \/ (exists msg, res = error_result msg)).
Proof.
  intros python environ service text.
  rewrite call_process_bank_transactions. simpl fst.
  eexists; split; [reflexivity|]. apply answer_shape.
Qed.



(** C10.  When the response has a client or server error status (400 to
    599), [raise_for_status] raises an [HTTPError], which only the
    catch-all clause handles: the function returns
    [{"error": "Unexpected error: <message of the HTTPError>"}], which is
    none of the timeout, connection-failure and unexpected-format
    results, and it does not raise. *)
Theorem http_error_status_gives_unexpected_error :
  forall {python : Interpreter} (environ : string -> option string) (service : request -> outcome Response)
         (text : string) (r : Response),
    service (the_request environ text) = Ret r ->
    (400 <= status_code r < 600)%Z ->
    let msg :=
      (Z_str (status_code r) ++ " "
         ++ (if (status_code r <? 500)%Z then "Client" else "Server")
         ++ " Error: " ++ reason r ++ " for url: " ++ resp_url r)%string in
    raise_for_status r = Raise (mk_exn HTTPError msg)
    /\ call (process_bank_transactions environ service text)
       = (Ret (error_result ("Unexpected error: " ++ msg)), [the_request environ text])
    /\ error_result ("Unexpected error: " ++ msg)
       <> error_result "Request timed out connecting to Ollama"
    /\ error_result ("Unexpected error: " ++ msg)
       <> error_result "Failed to connect to Ollama server"
    /\ error_result ("Unexpected error: " ++ msg)
       <> error_result "Unexpected response format from model".
Proof.
  intros python environ service text r Hr [Hlo Hhi] msg.
  assert (Hraise : raise_for_status r = Raise (mk_exn HTTPError msg)).
  { unfold raise_for_status, msg.
    destruct (Z.ltb_spec (status_code r) 500) as [H5 | H5].
    - replace (400 <=? status_code r)%Z with true by (symmetry; apply Z.leb_le; lia).
      reflexivity.
    - replace (400 <=? status_code r)%Z with true by (symmetry; apply Z.leb_le; lia).
      replace (500 <=? status_code r)%Z with true by (symmetry; apply Z.leb_le; lia).
      replace (status_code r <? 600)%Z with true by (symmetry; apply Z.ltb_lt; lia).
      reflexivity. }
  split; [exact Hraise|]. split.
  - rewrite call_process_bank_transactions, Hr.
    unfold answer. rewrite Hraise. reflexivity.
  - repeat split; intros H; discriminate H.
Qed.

Lemma http_error_status_gives_unexpected_error_witness :
  raise_for_status (http_response 404 "Not Found" "")
  = Raise (mk_exn HTTPError
             "404 Client Error: Not Found for url: http://host.docker.internal:11434/api/chat")
  /\ call (process_bank_transactions no_environ
             (service_returning (http_response 404 "Not Found" "")) statement_text)
     = (Ret (error_result
               "Unexpected error: 404 Client Error: Not Found for url: http://host.docker.internal:11434/api/chat"),
        [the_request no_environ statement_text]).
Proof.
  pose proof (http_error_status_gives_unexpected_error no_environ
                (service_returning (http_response 404 "Not Found" "")) statement_text
                (http_response 404 "Not Found" "")) as H.
  assert (Hr : service_returning (http_response 404 "Not Found" "")
                 (the_request no_environ statement_text)
               = Ret (http_response 404 "Not Found" "")) by reflexivity.
  assert (Hs : (400 <= status_code (http_response 404 "Not Found" "") < 600)%Z)
    by (simpl; lia).
  destruct (H Hr Hs) as (H1 & H2 & _).
  split; [exact H1 | exact H2].
Defined.

(** ** Validation: what a success says about the input *)

Lemma vap_inl {A B : Type} (f : Pydantic.vresult (A -> B)) (x : Pydantic.vresult A) (b : B) :
  Pydantic.vap f x = inl b -> exists g a, f = inl g /\ x = inl a /\ b = g a.
Proof.
  destruct f as [g | ef], x as [a | ex]; simpl; intros H; try discriminate H.
  injection H as <-. eauto.
Qed.

Lemma field_inl {A : Type} (d : list (string * pyval)) (loc : list Pydantic.loc_item)
  (k : string) (validate : list Pydantic.loc_item -> pyval -> Pydantic.vresult A) (a : A) :
  Pydantic.field d loc k validate = inl a ->
  exists v, dict_get d k = Some v /\ validate (loc ++ [Pydantic.Key k]) v = inl a.
Proof.
  unfold Pydantic.field. destruct (dict_get d k) as [v|]; [eauto | discriminate].
Qed.

Lemma validate_str_inl (loc : list Pydantic.loc_item) (v : pyval) (s : string) :
  Pydantic.validate_str loc v = inl s -> v = PStr s.
Proof. destruct v; simpl; intros H; try discriminate H. injection H as <-. reflexivity. Qed.

Lemma field_str_inl (d : list (string * pyval)) (loc : list Pydantic.loc_item)
  (k s : string) :
  Pydantic.field d loc k Pydantic.validate_str = inl s -> dict_get d k = Some (PStr s).
Proof.
  intros H. apply field_inl in H as (v & Hv & Hs).
  apply validate_str_inl in Hs. subst v. exact Hv.
Qed.









(** Scenario A of the specification: the content wraps the statement in
    an outer [transactions] object.  The function returns it as parsed;
    the statement inside has one transaction, of type CREDIT and balance
    1500.0. *)
Example scenario_A_round_trips :
  run_on_content scenario_A
  = Ret (data_result (PDict [("transactions", statement_value five_hundred "CREDIT")]))
  /\ Pydantic.model_validate (statement_value five_hundred "CREDIT")
     = inl jane_doe_statement.
Proof. split; vm_compute; reflexivity. Qed.

(** C1, as stated, fails.  Content without [account_holder], content
    whose [amount] is the text [abc] and content whose [type] is REFUND
    all come back as [{"data": ...}] results, although the first two do
    not validate as a [BankStatement]. *)
Lemma schema_violations_are_returned_as_data :
  (Pydantic.model_validate (PDict [("transactions", PList [])])
   = inr [Pydantic.mk_verror [Pydantic.Key "account_holder"] "missing"]
   /\ run_on_content scenario_D
      = Ret (data_result (PDict [("transactions", PList [])])))
  /\ (Pydantic.model_validate (statement_value (PStr "abc") "CREDIT")
      = inr [Pydantic.mk_verror
               [Pydantic.Key "transactions"; Pydantic.Index 0; Pydantic.Key "amount"]
               "float_parsing"]
      /\ run_on_content scenario_E
         = Ret (data_result (statement_value (PStr "abc") "CREDIT")))
  /\ run_on_content refund_statement
     = Ret (data_result (statement_value five_hundred "REFUND")).
Proof. repeat split; vm_compute; reflexivity. Qed.

(** C1, amended.  Whatever the content parses to (with or without an
    [account_holder], whatever the [type] values and the [amount]
    values), the function returns it unchanged under [data]; that result
    is not an error result.  No validation against the schema is run. *)
Theorem parsed_content_is_returned_unvalidated :
  forall {python : Interpreter} (environ : string -> option string) (service : request -> outcome Response)
         (text : string) (r : Response) (doc : string) (v : pyval),
    service (the_request environ text) = Ret r ->
    message_content r (PStr doc) ->
    Json.decode doc = inl v ->
    call (process_bank_transactions environ service text)
    = (Ret (data_result v), [the_request environ text])
    /\ (forall msg, data_result v <> error_result msg)
    /\ (forall errs, Pydantic.model_validate v = inr errs ->
          fst (call (process_bank_transactions environ service text))
          = Ret (data_result v)).
Proof.
  intros python environ service text r doc v Hr Hc Hd.
  rewrite call_process_bank_transactions, Hr.
  rewrite (answer_of_parsed_content r doc v Hc Hd).
  split; [reflexivity|]. split; [apply data_is_not_error | reflexivity].
Qed.

Lemma parsed_content_is_returned_unvalidated_witness :
  call (process_bank_transactions no_environ
          (service_returning (chat_reply scenario_E)) statement_text)
  = (Ret (data_result (statement_value (PStr "abc") "CREDIT")),
     [the_request no_environ statement_text]).
Proof.
  assert (Hr : service_returning (chat_reply scenario_E)
                 (the_request no_environ statement_text)
               = Ret (chat_reply scenario_E)) by reflexivity.
  assert (Hc : message_content (chat_reply scenario_E) (PStr scenario_E)).
  { split; [reflexivity|].
    exists (chat_reply_data scenario_E),
           [("role", PStr "assistant"); ("content", PStr scenario_E)].
    repeat split; vm_compute; reflexivity. }
  assert (Hd : Json.decode scenario_E = inl (statement_value (PStr "abc") "CREDIT"))
    by (vm_compute; reflexivity).
  destruct (parsed_content_is_returned_unvalidated no_environ
              (service_returning (chat_reply scenario_E)) statement_text
              (chat_reply scenario_E) scenario_E
              (statement_value (PStr "abc") "CREDIT") Hr Hc Hd) as [H _].
  exact H.
Defined.

(** C4: a reply whose [message] has no [content].  The lookup raises a
    [KeyError] inside the inner [try], whose only clause is for
    [JSONDecodeError]; the catch-all clause reports it, and the result is
    not the one for a response of unexpected format. *)
Example missing_content_is_an_unexpected_error :
  call (process_bank_transactions no_environ
          (service_returning (http_response 200 "OK" (dq "{`message`: {}}")))
          statement_text)
  = (Ret (error_result "Unexpected error: 'content'"),
     [the_request no_environ statement_text])
  /\ error_result "Unexpected error: 'content'"
     <> error_result "Unexpected response format from model".
Proof.
  split; [| intros H; discriminate H].
  rewrite call_process_bank_transactions. vm_compute. reflexivity.
Qed.

(** ** Building a [Transaction] *)

Lemma dict_get_set_same {V : Type} (d : list (string * V)) (k : string) (v : V) :
  dict_get (dict_set d k v) k = Some v.
Proof.
  induction d as [| [k' v'] d IH]; simpl.
  - rewrite String.eqb_refl. reflexivity.
  - destruct (String.eqb k' k) eqn:E; simpl; rewrite E; [reflexivity | exact IH].
Qed.

Lemma dict_get_set_other {V : Type} (d : list (string * V)) (k k' : string) (v : V) :
  k <> k' -> dict_get (dict_set d k v) k' = dict_get d k'.
Proof.
  intros Hk. induction d as [| [k0 v0] d IH]; simpl.
  - destruct (String.eqb_spec k k'); [contradiction | reflexivity].
  - destruct (String.eqb_spec k0 k) as [-> | Hne]; simpl.
    + destruct (String.eqb_spec k k'); [contradiction | reflexivity].
    + rewrite IH. reflexivity.
Qed.

Lemma field_set_same {A : Type} (d : list (string * pyval)) (loc : list Pydantic.loc_item)
  (k : string) (v : pyval)
  (validate : list Pydantic.loc_item -> pyval -> Pydantic.vresult A) :
  Pydantic.field (dict_set d k v) loc k validate = validate (loc ++ [Pydantic.Key k]) v.
Proof. unfold Pydantic.field. rewrite dict_get_set_same. reflexivity. Qed.

Lemma field_set_other {A : Type} (d : list (string * pyval)) (loc : list Pydantic.loc_item)
  (k k' : string) (v : pyval)
  (validate : list Pydantic.loc_item -> pyval -> Pydantic.vresult A) :
  k <> k' ->
  Pydantic.field (dict_set d k v) loc k' validate = Pydantic.field d loc k' validate.
Proof. intros Hk. unfold Pydantic.field. rewrite (dict_get_set_other d k k' v Hk). reflexivity. Qed.

(** C5, as stated, fails: a [Transaction] is built with the type REFUND,
    which is neither CREDIT nor DEBIT. *)
Lemma Transaction_accepts_another_type :
  exists t : Transaction,
    Pydantic.new_Transaction (salary five_hundred "REFUND") = inl t
    /\ type t = "REFUND"
    /\ type t <> "CREDIT"
    /\ type t <> "DEBIT".
Proof.
  exists (mk_Transaction "01-05-2024" (FDec false 5000 (-1)) "INR" "REFUND"
            "Salary" (FDec false 15000 (-1))).
  repeat split; try (vm_compute; reflexivity); simpl; intros H; discriminate H.
Qed.

(** C5, amended.  The [type] field of a constructed [Transaction] holds
    the string it was given; any string is accepted for it: giving another
    string as [type] to arguments that build a [Transaction] builds the
    same [Transaction] with that type. *)
Theorem Transaction_type_is_any_string :
  forall (kwargs : list (string * pyval)) (t : Transaction),
    Pydantic.new_Transaction kwargs = inl t ->
    dict_get kwargs "type" = Some (PStr (type t))
    /\ forall s : string,
         Pydantic.new_Transaction (dict_set kwargs "type" (PStr s))
         = inl (mk_Transaction (date t) (amount t) (currency t) s
                  (description t) (balance t)).
Proof.
  intros kwargs t H.
  unfold Pydantic.new_Transaction, Pydantic.validate_Transaction in *.
  apply vap_inl in H as (g6 & bal & H & Hbal & ->).
  apply vap_inl in H as (g5 & des & H & Hdes & ->).
  apply vap_inl in H as (g4 & typ & H & Htyp & ->).
  apply vap_inl in H as (g3 & cur & H & Hcur & ->).
  apply vap_inl in H as (g2 & amt & H & Hamt & ->).
  apply vap_inl in H as (g1 & dat & H & Hdat & ->).
  injection H as <-. simpl.
  split; [exact (field_str_inl _ _ _ _ Htyp)|].
  intros s.
  rewrite field_set_same.
  rewrite !field_set_other by (intros E; discriminate E).
  rewrite Hdat, Hamt, Hcur, Hdes, Hbal. reflexivity.
Qed.

Lemma Transaction_type_is_any_string_witness :
  dict_get (salary five_hundred "CREDIT") "type" = Some (PStr "CREDIT")
  /\ Pydantic.new_Transaction (dict_set (salary five_hundred "CREDIT") "type" (PStr "REFUND"))
     = inl (mk_Transaction "01-05-2024" (FDec false 5000 (-1)) "INR" "REFUND"
              "Salary" (FDec false 15000 (-1))).
Proof.
  assert (H : Pydantic.new_Transaction (salary five_hundred "CREDIT")
              = inl (mk_Transaction "01-05-2024" (FDec false 5000 (-1)) "INR" "CREDIT"
                       "Salary" (FDec false 15000 (-1))))
    by (vm_compute; reflexivity).
  destruct (Transaction_type_is_any_string _ _ H) as [H1 H2].
  split; [exact H1 | exact (H2 "REFUND")].
Defined.

(** C7.  The payload is a function of the document text alone: two calls
    with the same text, in any two environments and against any two
    services, send the same JSON payload, which is [payload text]: the
    model [phi4], the system message followed by the text as the user
    message, the JSON schema of [BankStatement] as format, no streaming. *)
Theorem payload_is_deterministic :
  forall {python : Interpreter} (text : string)
         (environ1 environ2 : string -> option string)
         (service1 service2 : request -> outcome Response),
    map req_json (snd (call (process_bank_transactions environ1 service1 text)))
    = map req_json (snd (call (process_bank_transactions environ2 service2 text)))
    /\ map req_json (snd (call (process_bank_transactions environ1 service1 text)))
       = [payload text]
    /\ py_getitem (payload text) "model" = Ret (PStr "phi4")
    /\ py_getitem (payload text) "messages"
       = Ret (PList [PDict [("role", PStr "system"); ("content", PStr SYSTEM_MESSAGE)];
                     PDict [("role", PStr "user"); ("content", PStr text)]])
    /\ py_getitem (payload text) "format"
       = Ret (Pydantic.model_json_schema declared_models BankStatement_cls)
    /\ py_getitem (payload text) "stream" = Ret (PBool false).
Proof.
  intros python text environ1 environ2 service1 service2.
  rewrite !call_process_bank_transactions.
  repeat split.
Qed.

(** * More of the code *)

(** ** More on [process_bank_transactions] *)

Lemma py_getitem_raises (obj : pyval) (key : string) (e : exn) :
  py_getitem obj key = Raise e -> exn_cls e = KeyError \/ exn_cls e = TypeError.
Proof.
  destruct obj; simpl; intros H; try (injection H as <-; auto).
  destruct (dict_get d key); [discriminate H | injection H as <-; auto].
Qed.

Lemma handled_other (e : exn) :
  isinstance e Timeout = false ->
  isinstance e ConnectionError = false ->
  handled e = error_result ("Unexpected error: " ++ exn_str e).
Proof. intros H1 H2. unfold handled. rewrite H1, H2. reflexivity. Qed.

Lemma handled_lookup_error (e : exn) :
  exn_cls e = KeyError \/ exn_cls e = TypeError ->
  isinstance e JSONDecodeError = false
  /\ handled e = error_result ("Unexpected error: " ++ exn_str e).
Proof.
  intros H. unfold handled, isinstance. destruct H as [-> | ->]; split; reflexivity.
Qed.

(** X4.  When [requests.post] raises a connection error that is not a
    timeout, the function returns
    [{"error": "Failed to connect to Ollama server"}]. *)
Theorem connection_failure_gives_the_connection_error :
  forall {python : Interpreter} (environ : string -> option string) (service : request -> outcome Response)
         (text : string) (e : exn),
    service (the_request environ text) = Raise e ->
    isinstance e ConnectionError = true ->
    isinstance e Timeout = false ->
    call (process_bank_transactions environ service text)
    = (Ret (error_result "Failed to connect to Ollama server"),
       [the_request environ text]).
Proof.
  intros python environ service text e Hr Hc Ht.
  rewrite call_process_bank_transactions, Hr.
  unfold answer, handled. rewrite Ht, Hc. reflexivity.
Qed.

(** X5.  A [ConnectTimeout] is both a connection error and a timeout; the
    clause for timeouts comes first, so the function reports it as a
    timeout. *)
Theorem connect_timeout_is_reported_as_timeout :
  forall {python : Interpreter} (environ : string -> option string) (service : request -> outcome Response)
         (text : string) (e : exn),
    service (the_request environ text) = Raise e ->
    exn_cls e = ConnectTimeout ->
    isinstance e ConnectionError = true
    /\ call (process_bank_transactions environ service text)
       = (Ret (error_result "Request timed out connecting to Ollama"),
          [the_request environ text]).
Proof.
  intros python environ service text e Hr Hc.
  rewrite call_process_bank_transactions, Hr.
  unfold answer, handled, isinstance. rewrite Hc. split; reflexivity.
Qed.


(** X7.  When the decoded body does not contain [message] (an object
    without that key, a list without that string, a string without that
    text), the function returns
    [{"error": "Unexpected response format from model"}]. *)
Theorem body_without_message_is_an_unexpected_format :
  forall {python : Interpreter} (environ : string -> option string) (service : request -> outcome Response)
         (text : string) (r : Response) (response_data : pyval),
    service (the_request environ text) = Ret r ->
    raise_for_status r = Ret tt ->
    Response_json r = Ret response_data ->
    py_contains "message" response_data = Ret false ->
    call (process_bank_transactions environ service text)
    = (Ret (error_result "Unexpected response format from model"),
       [the_request environ text]).
Proof.
  intros python environ service text r d Hr Hs Hj Hc.
  rewrite call_process_bank_transactions, Hr.
  unfold answer. rewrite Hs, Hj, Hc. reflexivity.
Qed.

(** X8.  When the body is an object whose [message] cannot be indexed by
    [content] (it has no such key, or it is not an object), the
    [KeyError] or [TypeError] is reported by the catch-all clause as
    [Unexpected error: ] followed by its text. *)
Theorem message_without_content_is_an_unexpected_error :
  forall {python : Interpreter} (environ : string -> option string) (service : request -> outcome Response)
         (text : string) (r : Response) (d : list (string * pyval)) (message : pyval)
         (e : exn),
    service (the_request environ text) = Ret r ->
    raise_for_status r = Ret tt ->
    Response_json r = Ret (PDict d) ->
    dict_get d "message" = Some message ->
    py_getitem message "content" = Raise e ->
    call (process_bank_transactions environ service text)
    = (Ret (error_result ("Unexpected error: " ++ exn_str e)),
       [the_request environ text]).
Proof.
  intros python environ service text r d message e Hr Hs Hj Hm He.
  rewrite call_process_bank_transactions, Hr.
  unfold answer. rewrite Hs, Hj.
  unfold py_contains, dict_has. rewrite Hm.
  unfold inner_try, inner_body. unfold py_getitem at 1. rewrite Hm, He.
  destruct (handled_lookup_error e (py_getitem_raises _ _ _ He)) as [H1 H2].
  rewrite H1. simpl. rewrite H2. reflexivity.
Qed.

(** X9.  When [content] is not a string (a number, [null], a list, an
    object), [json.loads] raises a [TypeError], which the inner clause
    does not handle: the result is [Unexpected error: the JSON object
    must be str, bytes or bytearray, not ] followed by the type's name. *)
Theorem content_that_is_not_text_is_an_unexpected_error :
  forall {python : Interpreter} (environ : string -> option string) (service : request -> outcome Response)
         (text : string) (r : Response) (content : pyval),
    service (the_request environ text) = Ret r ->
    message_content r content ->
    (forall doc, content <> PStr doc) ->
    call (process_bank_transactions environ service text)
    = (Ret (error_result
              ("Unexpected error: the JSON object must be str, bytes or bytearray, not "
                 ++ type_name content)),
       [the_request environ text]).
Proof.
  intros python environ service text r content Hr Hc Hn.
  rewrite call_process_bank_transactions, Hr.
  rewrite (answer_of_content r content Hc).
  destruct content; try reflexivity.
  exfalso. exact (Hn s eq_refl).
Qed.



Lemma handled_known (e : exn) : known_error (handled e).
Proof.
  unfold known_error, handled.
  destruct (isinstance e Timeout); [auto|].
  destruct (isinstance e ConnectionError); [auto|].
  right; right; right; right. eauto.
Qed.

Lemma answer_known {python : Interpreter} (o : outcome Response) :
  (exists v, answer o = data_result v) \/ known_error (answer o).
Proof.
  unfold answer.
  destruct o as [response | e]; [| right; apply handled_known].
  destruct (raise_for_status response) as [[] | e]; [| right; apply handled_known].
  destruct (Response_json response) as [d | e]; [| right; apply handled_known].
  destruct (py_contains "message" d) as [[|] | e];
    [| right; unfold known_error; auto | right; apply handled_known].
  unfold inner_try, inner_body.
  destruct (py_getitem d "message") as [message | e].
  - destruct (py_getitem message "content") as [content | e].
    + destruct (json_loads content) as [t | e]; [left; simpl; eauto|].
      destruct (isinstance e JSONDecodeError); simpl;
        [right; unfold known_error; auto | right; apply handled_known].
    + destruct (isinstance e JSONDecodeError); simpl;
        [right; unfold known_error; auto | right; apply handled_known].
  - destruct (isinstance e JSONDecodeError); simpl;
      [right; unfold known_error; auto | right; apply handled_known].
Qed.

(** X1.  The result of [process_bank_transactions] is a data result or one
    of five error results: the four fixed messages (timeout, connection,
    unexpected format, parse failure) or [Unexpected error: ] followed by
    the text of the exception. *)
Theorem result_is_data_or_one_of_five_errors :
  forall {python : Interpreter} (environ : string -> option string) (service : request -> outcome Response)
         (text : string),
  exists res,
    fst (call (process_bank_transactions environ service text)) = Ret res
    /\ ((exists v, res = data_result v)
        \/ res = error_result "Request timed out connecting to Ollama"
        \/ res = error_result "Failed to connect to Ollama server"
        \/ res = error_result "Unexpected response format from model"
        \/ res = error_result "Failed to parse model response as JSON"
        \/ exists detail, res = error_result ("Unexpected error: " ++ detail)).
Proof.
  intros python environ service text.
  rewrite call_process_bank_transactions. simpl fst.
  eexists; split; [reflexivity|]. apply answer_known.
Qed.

(** X3.  Whatever the service does, the function sends exactly one request
    (it does not try again): to port 11434 and path [/api/chat] of the
    host named by [OLLAMA_HOST], or of [host.docker.internal] when the
    variable is not set, with [payload text] as JSON and a timeout of 300
    seconds. *)
Theorem exactly_one_request_is_sent :
  forall {python : Interpreter} (environ : string -> option string) (service : request -> outcome Response)
         (text : string),
    snd (call (process_bank_transactions environ service text))
    = [mk_request
         ("http://"
            ++ match environ "OLLAMA_HOST" with
               | Some host => host
               | None => "host.docker.internal"
               end
            ++ ":11434/api/chat")
         (payload text) 300].
Proof.
  intros python environ service text.
  rewrite call_process_bank_transactions. reflexivity.
Qed.



(** ** Building a [Transaction], continued *)

Lemma vap_inr_left {A B : Type} (f : Pydantic.vresult (A -> B)) (x : Pydantic.vresult A)
  (err : Pydantic.verror) (errs : list Pydantic.verror) :
  f = inr errs -> In err errs ->
  exists errs', Pydantic.vap f x = inr errs' /\ In err errs'.
Proof.
  intros -> Hin. destruct x as [a | ex]; simpl; eexists; split; try reflexivity.
  - exact Hin.
  - apply in_or_app. left. exact Hin.
Qed.

Lemma vap_inr_right {A B : Type} (f : Pydantic.vresult (A -> B)) (x : Pydantic.vresult A)
  (err : Pydantic.verror) (errs : list Pydantic.verror) :
  x = inr errs -> In err errs ->
  exists errs', Pydantic.vap f x = inr errs' /\ In err errs'.
Proof.
  intros -> Hin. destruct f as [g | ef]; simpl; eexists; split; try reflexivity.
  - exact Hin.
  - apply in_or_app. right. exact Hin.
Qed.

Lemma field_missing {A : Type} (d : list (string * pyval)) (loc : list Pydantic.loc_item)
  (k : string) (validate : list Pydantic.loc_item -> pyval -> Pydantic.vresult A) :
  dict_get d k = None ->
  Pydantic.field d loc k validate = inr [Pydantic.mk_verror (loc ++ [Pydantic.Key k]) "missing"].
Proof. intros H. unfold Pydantic.field. rewrite H. reflexivity. Qed.

(** X23.  A [Transaction] needs each of its six declared fields: when one is
    absent from the arguments, construction fails and the errors name
    that field as missing. *)
Theorem Transaction_names_a_missing_field :
  forall (kwargs : list (string * pyval)) (k : string),
    In k (map fst (cls_fields Transaction_cls)) ->
    dict_get kwargs k = None ->
    exists errs,
      Pydantic.new_Transaction kwargs = inr errs
      /\ In (Pydantic.mk_verror [Pydantic.Key k] "missing") errs.
Proof.
  intros kwargs k Hk Hnone.
  unfold Pydantic.new_Transaction, Pydantic.validate_Transaction.
  simpl in Hk.
  destruct Hk as [<- | [<- | [<- | [<- | [<- | [<- | []]]]]]];
    rewrite (field_missing kwargs [] _ _ Hnone);
    repeat match goal with
      | |- context [Pydantic.field kwargs [] ?k ?v] =>
          destruct (Pydantic.field kwargs [] k v)
      end;
    simpl; eexists; (split; [reflexivity|]);
    rewrite ?in_app_iff; simpl; tauto.
Qed.

(** X24.  A [Transaction] is built from its six declared fields only: two
    sets of arguments that agree on them give the same outcome, whatever
    other keys they hold and in whatever order. *)
Theorem Transaction_reads_its_six_fields_only :
  forall (kwargs1 kwargs2 : list (string * pyval)),
    (forall k, In k (map fst (cls_fields Transaction_cls)) ->
               dict_get kwargs1 k = dict_get kwargs2 k) ->
    Pydantic.new_Transaction kwargs1 = Pydantic.new_Transaction kwargs2.
Proof.
  intros kwargs1 kwargs2 H.
  unfold Pydantic.new_Transaction, Pydantic.validate_Transaction, Pydantic.field.
  rewrite !H by (simpl; tauto). reflexivity.
Qed.

(** ** Text and files *)

Lemma string_append_assoc (a b c : string) : ((a ++ b) ++ c = a ++ (b ++ c))%string.
Proof. induction a as [| x a IH]; simpl; [reflexivity | rewrite IH; reflexivity]. Qed.

Lemma string_append_empty (a : string) : (a ++ "" = a)%string.
Proof. induction a as [| x a IH]; simpl; [reflexivity | rewrite IH; reflexivity]. Qed.

Lemma concat_texts_app (xs ys : list string) :
  concat_texts (xs ++ ys) = (concat_texts xs ++ concat_texts ys)%string.
Proof.
  induction xs as [| x xs IH]; simpl; [reflexivity|].
  rewrite IH, string_append_assoc. reflexivity.
Qed.

Lemma dict_set_set {V : Type} (d : list (string * V)) (k : string) (v v' : V) :
  dict_set (dict_set d k v) k v' = dict_set d k v'.
Proof.
  induction d as [| [k0 v0] d IH]; simpl.
  - rewrite String.eqb_refl. reflexivity.
  - destruct (String.eqb k0 k) eqn:E; simpl; rewrite E; [reflexivity|].
    rewrite IH. reflexivity.
Qed.

Lemma dict_remove_set {V : Type} (d : list (string * V)) (k : string) (v : V) :
  dict_remove (dict_set d k v) k = dict_remove d k.
Proof.
  induction d as [| [k0 v0] d IH]; simpl.
  - rewrite String.eqb_refl. reflexivity.
  - destruct (String.eqb k0 k) eqn:E; simpl; rewrite E; [reflexivity|].
    rewrite IH. reflexivity.
Qed.

Lemma dict_get_remove_same {V : Type} (d : list (string * V)) (k : string) :
  dict_get (dict_remove d k) k = None.
Proof.
  induction d as [| [k0 v0] d IH]; simpl; [reflexivity|].
  destruct (String.eqb k0 k) eqn:E; simpl; [exact IH | rewrite E; exact IH].
Qed.

Lemma dict_get_remove_other {V : Type} (d : list (string * V)) (k k' : string) :
  k <> k' -> dict_get (dict_remove d k) k' = dict_get d k'.
Proof.
  intros Hk. induction d as [| [k0 v0] d IH]; simpl; [reflexivity|].
  destruct (String.eqb_spec k0 k) as [-> | Hne]; simpl.
  - destruct (String.eqb_spec k k'); [contradiction | exact IH].
  - rewrite IH. reflexivity.
Qed.

(** ** [extract_pdf_text] *)

Section Extraction.

Variable converter : bytes -> outcome string.

(** The loop over files that all convert: the texts are appended in order
    and [temp.pdf] holds the last file. *)
Lemma extract_loop_converts (pdf_files : list bytes) :
  forall (texts : list string) (text : string) (st : app_state),
    Forall2 (fun f t => converter f = Ret t) pdf_files texts ->
    extract_loop converter pdf_files text st
    = (Ret (text ++ concat_texts texts)%string,
       match rev pdf_files with
       | [] => st
       | f :: _ => with_temp f st
       end).
Proof.
  induction pdf_files as [| f rest IH]; intros texts text st H.
  - inversion H; subst. simpl. rewrite string_append_empty. reflexivity.
  - inversion H as [| f' t fs ts Hf Hrest]; subst.
    cbn [extract_loop]. unfold app_bind at 1. unfold write_file at 1.
    unfold app_bind at 1. unfold convert at 1. cbn [disk].
    rewrite dict_get_set_same, Hf.
    rewrite (IH ts (text ++ t)%string _ Hrest).
    simpl concat_texts. rewrite string_append_assoc.
    f_equal. simpl rev.
    destruct (rev rest) as [| l ls] eqn:E; simpl; [reflexivity|].
    unfold with_temp. simpl. rewrite dict_set_set. reflexivity.
Qed.

(** The loop, when it returns, has converted every file. *)
Lemma extract_loop_returns (pdf_files : list bytes) :
  forall (text x : string) (st st' : app_state),
    extract_loop converter pdf_files text st = (Ret x, st') ->
    exists texts,
      Forall2 (fun f t => converter f = Ret t) pdf_files texts
      /\ x = (text ++ concat_texts texts)%string.
Proof.
  induction pdf_files as [| f rest IH]; intros text x st st' H.
  - simpl in H. injection H as <- _. exists []. split; [constructor|].
    simpl. rewrite string_append_empty. reflexivity.
  - cbn [extract_loop] in H. unfold app_bind at 1 in H. unfold write_file at 1 in H.
    unfold app_bind at 1 in H. unfold convert at 1 in H. cbn [disk] in H.
    rewrite dict_get_set_same in H.
    destruct (converter f) as [t | e] eqn:Hf; [| discriminate H].
    apply IH in H as (ts & Hts & ->).
    exists (t :: ts). split; [constructor; assumption|].
    simpl. rewrite string_append_assoc. reflexivity.
Qed.

(** The loop stops at the first file that does not convert. *)
Lemma extract_loop_stops (done : list bytes) :
  forall (texts : list string) (f : bytes) (rest : list bytes) (e : exn)
         (text : string) (st : app_state),
    Forall2 (fun f t => converter f = Ret t) done texts ->
    converter f = Raise e ->
    extract_loop converter (done ++ f :: rest) text st = (Raise e, with_temp f st).
Proof.
  induction done as [| d done IH]; intros texts f rest e text st H He.
  - simpl. unfold app_bind at 1. unfold write_file at 1.
    unfold app_bind at 1. unfold convert at 1. cbn [disk].
    rewrite dict_get_set_same, He. reflexivity.
  - inversion H as [| d' t ds ts Hd Hdone]; subst.
    cbn [app extract_loop]. unfold app_bind at 1. unfold write_file at 1.
    unfold app_bind at 1. unfold convert at 1. cbn [disk].
    rewrite dict_get_set_same, Hd.
    rewrite (IH ts f rest e _ _ Hdone He).
    unfold with_temp. simpl. rewrite dict_set_set. reflexivity.
Qed.

End Extraction.

Lemma extract_converts (converter : bytes -> outcome string) (pdf_files : list bytes)
  (texts : list string) (st : app_state) :
  pdf_files <> [] ->
  Forall2 (fun f t => converter f = Ret t) pdf_files texts ->
  extract_pdf_text (Ret converter) pdf_files st
  = (Ret (concat_texts texts), without_temp st).
Proof.
  revert converter pdf_files texts st.
  intros converter pdf_files texts st Hne H.
  unfold extract_pdf_text, app_bind at 1, app_lift.
  unfold app_bind at 1.
  rewrite (extract_loop_converts converter pdf_files texts "" st H).
  destruct (rev pdf_files) as [| f fs] eqn:E.
  - exfalso. apply Hne. rewrite <- (rev_involutive pdf_files), E. reflexivity.
  - unfold app_bind, os_remove, with_temp, without_temp, dict_has. cbn [disk sent shown].
    rewrite dict_get_set_same, dict_remove_set. reflexivity.
Qed.

(** X12.  When every uploaded file converts, [extract_pdf_text] returns the
    texts of the files in upload order with nothing between them, and
    [temp.pdf] does not exist afterwards. *)
Theorem extract_pdf_text_concatenates :
  forall (converter : bytes -> outcome string) (pdf_files : list bytes)
         (texts : list string) (st : app_state),
    pdf_files <> [] ->
    Forall2 (fun f t => converter f = Ret t) pdf_files texts ->
    extract_pdf_text (Ret converter) pdf_files st
    = (Ret (concat_texts texts), without_temp st)
    /\ dict_get (disk (without_temp st)) "temp.pdf" = None.
Proof.
  intros converter pdf_files texts st Hne H.
  split; [exact (extract_converts converter pdf_files texts st Hne H)|].
  unfold without_temp. simpl. apply dict_get_remove_same.
Qed.

(** X13.  With no file to convert, [extract_pdf_text] writes nothing and
    still removes [temp.pdf]: it raises the file-not-found error of
    [os.remove] unless a [temp.pdf] was there, which it then deletes,
    returning the empty text. *)
Theorem extract_pdf_text_of_no_file :
  forall (converter : bytes -> outcome string) (st : app_state),
    extract_pdf_text (Ret converter) [] st
    = if dict_has (disk st) "temp.pdf"
      then (Ret "", without_temp st)
      else (Raise (no_such_file "temp.pdf"), st).
Proof.
  intros converter st.
  unfold extract_pdf_text, app_bind, app_lift, os_remove, without_temp. simpl.
  destruct (dict_has (disk st) "temp.pdf"); reflexivity.
Qed.

Lemma extract_stops (converter : bytes -> outcome string) (done : list bytes)
  (texts : list string) (f : bytes) (rest : list bytes) (e : exn) (st : app_state) :
  Forall2 (fun f t => converter f = Ret t) done texts ->
  converter f = Raise e ->
  extract_pdf_text (Ret converter) (done ++ f :: rest) st = (Raise e, with_temp f st).
Proof.
  intros H He.
  unfold extract_pdf_text, app_bind at 1, app_lift. unfold app_bind at 1.
  rewrite (extract_loop_stops converter done texts f rest e "" st H He). reflexivity.
Qed.

(** X14.  When the converter raises on a file, [extract_pdf_text] raises
    that exception at once (the files after it are not read) and
    [temp.pdf] stays on the disk, holding that file. *)
Theorem extract_pdf_text_leaves_the_file_on_failure :
  forall (converter : bytes -> outcome string) (done : list bytes) (texts : list string)
         (f : bytes) (rest : list bytes) (e : exn) (st : app_state),
    Forall2 (fun f t => converter f = Ret t) done texts ->
    converter f = Raise e ->
    extract_pdf_text (Ret converter) (done ++ f :: rest) st = (Raise e, with_temp f st)
    /\ dict_get (disk (with_temp f st)) "temp.pdf" = Some f.
Proof.
  intros converter done texts f rest e st H He.
  split.
  - exact (extract_stops converter done texts f rest e st H He).
  - unfold with_temp. simpl. apply dict_get_set_same.
Qed.

(** X15.  The text of a batch is the text of its parts: when two non-empty
    lists of files are extracted with success, extracting the two lists
    as one gives the first text followed by the second. *)
Theorem extract_pdf_text_of_a_batch :
  forall (marker : outcome (bytes -> outcome string)) (files1 files2 : list bytes)
         (text1 text2 : string) (st1 st2 st st1' st2' : app_state),
    files1 <> [] ->
    files2 <> [] ->
    extract_pdf_text marker files1 st1 = (Ret text1, st1') ->
    extract_pdf_text marker files2 st2 = (Ret text2, st2') ->
    extract_pdf_text marker (files1 ++ files2) st
    = (Ret (text1 ++ text2)%string, without_temp st).
Proof.
  intros marker files1 files2 text1 text2 st1 st2 st st1' st2' Hn1 Hn2 H1 H2.
  destruct marker as [converter | e]; [| discriminate H1].
  assert (Hinv : forall files x s s',
            extract_pdf_text (Ret converter) files s = (Ret x, s') ->
            exists texts, Forall2 (fun f t => converter f = Ret t) files texts
                          /\ x = concat_texts texts).
  { intros files x s s' H.
    unfold extract_pdf_text, app_bind at 1, app_lift in H. unfold app_bind at 1 in H.
    destruct (extract_loop converter files "" s) as [[y | e] s''] eqn:E;
      [| discriminate H].
    apply extract_loop_returns in E as (texts & Hts & ->).
    exists texts. split; [assumption|].
    unfold app_bind in H. destruct (os_remove "temp.pdf" s'') as [[[] | e] s3];
      [| discriminate H].
    unfold app_ret in H. injection H as <- _. reflexivity. }
  apply Hinv in H1 as (ts1 & Ht1 & ->).
  apply Hinv in H2 as (ts2 & Ht2 & ->).
  rewrite <- concat_texts_app.
  apply extract_converts.
  - destruct files1; [contradiction | discriminate].
  - apply Forall2_app; assumption.
Qed.

Lemma same_but_temp_refl (st : app_state) : same_but_temp st st.
Proof. repeat split. Qed.

Lemma same_but_temp_trans (st1 st2 st3 : app_state) :
  same_but_temp st1 st2 -> same_but_temp st2 st3 -> same_but_temp st1 st3.
Proof.
  intros (A1 & B1 & C1) (A2 & B2 & C2). repeat split; try congruence.
  intros path Hp. rewrite (C2 path Hp). exact (C1 path Hp).
Qed.

Lemma same_but_temp_with_temp (f : bytes) (st : app_state) :
  same_but_temp st (with_temp f st).
Proof.
  repeat split. intros path Hp. unfold with_temp. simpl.
  apply dict_get_set_other. congruence.
Qed.

Lemma same_but_temp_without_temp (st : app_state) : same_but_temp st (without_temp st).
Proof.
  repeat split. intros path Hp. unfold without_temp. simpl.
  apply dict_get_remove_other. congruence.
Qed.

Lemma extract_loop_same_but_temp (converter : bytes -> outcome string)
  (pdf_files : list bytes) :
  forall (text : string) (st : app_state),
    same_but_temp st (snd (extract_loop converter pdf_files text st)).
Proof.
  induction pdf_files as [| f rest IH]; intros text st.
  - apply same_but_temp_refl.
  - cbn [extract_loop]. unfold app_bind at 1. unfold write_file at 1.
    unfold app_bind at 1. unfold convert at 1. cbn [disk].
    rewrite dict_get_set_same.
    fold (with_temp f st).
    destruct (converter f) as [t | e].
    + eapply same_but_temp_trans; [apply same_but_temp_with_temp | apply IH].
    + apply same_but_temp_with_temp.
Qed.

(** X16.  However it ends, [extract_pdf_text] sends no request, puts nothing
    on the page and leaves every file other than [temp.pdf] as it was. *)
Theorem extract_pdf_text_touches_temp_pdf_only :
  forall (marker : outcome (bytes -> outcome string)) (pdf_files : list bytes)
         (st : app_state),
    sent (snd (extract_pdf_text marker pdf_files st)) = sent st
    /\ shown (snd (extract_pdf_text marker pdf_files st)) = shown st
    /\ forall path, path <> "temp.pdf" ->
         dict_get (disk (snd (extract_pdf_text marker pdf_files st))) path
         = dict_get (disk st) path.
Proof.
  intros marker pdf_files st.
  change (same_but_temp st (snd (extract_pdf_text marker pdf_files st))).
  unfold extract_pdf_text, app_bind at 1, app_lift.
  destruct marker as [converter | e]; [| apply same_but_temp_refl].
  unfold app_bind at 1.
  pose proof (extract_loop_same_but_temp converter pdf_files "" st) as H.
  destruct (extract_loop converter pdf_files "" st) as [[text | e] st1];
    [| exact H].
  simpl in H. unfold app_bind, os_remove.
  destruct (dict_has (disk st1) "temp.pdf"); [| exact H].
  eapply same_but_temp_trans; [exact H | apply same_but_temp_without_temp].
Qed.

(** ** The script *)

Lemma showing_showing (xs ys : list ui_event) (st : app_state) :
  showing ys (showing xs st) = showing (xs ++ ys) st.
Proof. unfold showing. simpl. rewrite app_assoc. reflexivity. Qed.

Lemma show_showing (e : ui_event) (st : app_state) : show e st = (Ret tt, showing [e] st).
Proof. reflexivity. Qed.

Lemma process_bank_transactions_from_log {python : Interpreter}
  (environ : string -> option string) (service : request -> outcome Response)
  (text : string) (log : list request) :
  process_bank_transactions environ service text log
  = (Ret (answer (service (the_request environ text))), log ++ [the_request environ text]).
Proof.
  unfold process_bank_transactions, try_except at 1.
  fold outer_handlers.
  unfold bind at 1, requests_post. fold (the_request environ text).
  unfold answer.
  destruct (service (the_request environ text)) as [response | e];
    [| apply outer_handlers_total].
  unfold bind at 1, lift at 1.
  destruct (raise_for_status response) as [[] | e]; [| apply outer_handlers_total].
  unfold bind at 1, lift at 1.
  destruct (Response_json response) as [response_data | e]; [| apply outer_handlers_total].
  unfold bind at 1, lift at 1.
  destruct (py_contains "message" response_data) as [[|] | e];
    [| reflexivity | apply outer_handlers_total].
  unfold try_except, bind, lift, inner_try, inner_body, or_handled, ret.
  destruct (py_getitem response_data "message") as [message | e]; simpl.
  - destruct (py_getitem message "content") as [content | e]; simpl.
    + destruct (json_loads content) as [transactions | e]; simpl; [reflexivity|].
      destruct (isinstance e JSONDecodeError); simpl; [reflexivity|].
      apply outer_handlers_total.
    + destruct (isinstance e JSONDecodeError); simpl; [reflexivity|].
      apply outer_handlers_total.
  - destruct (isinstance e JSONDecodeError); simpl; [reflexivity|].
    apply outer_handlers_total.
Qed.

Section Script.

Context {python : Interpreter}.
Variable environ : string -> option string.
Variable service : request -> outcome Response.
Variable pandas_rejects : pyval -> option exn.
Variable json_dumps : pyval -> outcome string.
Variable str_of_other : pyval -> string.

(** What [report] puts on the page for an error result. *)
Lemma report_error (msg : string) (st : app_state) :
  report pandas_rejects json_dumps str_of_other (error_result msg) st
  = (Ret tt, showing [st_error ("Error processing transactions: " ++ msg)] st).
Proof. reflexivity. Qed.

Lemma report_data (v : pyval) (st : app_state) :
  report pandas_rejects json_dumps str_of_other (data_result v) st
  = (Ret tt, showing (data_events pandas_rejects json_dumps v) st).
Proof.
  unfold report, data_events, app_bind, app_lift, app_ret,
    app_try_except, with_block, show, pd_DataFrame, showing.
  simpl.
  destruct (truthy v); simpl; [| rewrite <- app_assoc; reflexivity].
  destruct (py_getitem v "transactions") as [rows | e]; simpl.
  - destruct (pandas_rejects rows) as [e |]; simpl.
    + rewrite isinstance_Exception. simpl. rewrite <- app_assoc. reflexivity.
    + fold (data_result v).
      destruct (json_dumps (data_result v)) as [dumped | e]; simpl.
      * rewrite <- !app_assoc. reflexivity.
      * rewrite isinstance_Exception. simpl. rewrite <- !app_assoc. reflexivity.
  - rewrite isinstance_Exception. simpl. rewrite <- app_assoc. reflexivity.
Qed.

(** The script on files that all convert. *)
Lemma script_on_converted_files (converter : bytes -> outcome string)
  (uploaded_files : list bytes) (texts : list string) (st : app_state) :
  uploaded_files <> [] ->
  Forall2 (fun f t => converter f = Ret t) uploaded_files texts ->
  let text := concat_texts texts in
  let result := answer (service (the_request environ text)) in
  script environ service (Ret converter) pandas_rejects json_dumps str_of_other
    uploaded_files st
  = match report pandas_rejects json_dumps str_of_other result
            (mk_app_state (dict_remove (disk st) "temp.pdf")
               (sent st ++ [the_request environ text])
               (shown st ++ page_head text result)) with
    | (o, st') => (o, showing [st_end] st')
    end.
Proof.
  intros Hne H text result.
  unfold script.
  unfold app_bind at 1. rewrite show_showing.
  unfold app_bind at 1. rewrite show_showing, showing_showing.
  destruct uploaded_files as [| f fs]; [contradiction|].
  unfold with_block. rewrite show_showing. cbn [snd]. rewrite showing_showing.
  unfold app_bind at 1.
  rewrite (extract_converts converter (f :: fs) texts _ Hne H).
  fold text.
  unfold app_bind at 1. unfold app_requests.
  rewrite process_bank_transactions_from_log. fold result.
  unfold app_bind at 1. rewrite show_showing.
  unfold app_bind at 1. rewrite show_showing.
  unfold app_bind at 1. rewrite show_showing.
  unfold app_bind at 1. unfold with_block. rewrite !show_showing. cbn [snd].
  rewrite !showing_showing.
  unfold showing, without_temp, page_head. cbn [disk sent shown app].
  rewrite <- !app_assoc. reflexivity.
Qed.


Lemma script_reports (converter : bytes -> outcome string)
  (uploaded_files : list bytes) (texts : list string) (st : app_state)
  (result : pyval) (events : list ui_event) :
  uploaded_files <> [] ->
  Forall2 (fun f t => converter f = Ret t) uploaded_files texts ->
  fst (call (process_bank_transactions environ service (concat_texts texts))) = Ret result ->
  (forall st', report pandas_rejects json_dumps str_of_other result st'
               = (Ret tt, showing events st')) ->
  script environ service (Ret converter) pandas_rejects json_dumps str_of_other
    uploaded_files st
  = (Ret tt, page_after environ st (concat_texts texts) result events).
Proof.
  intros Hne H Hres Hrep.
  rewrite call_process_bank_transactions in Hres. simpl in Hres. injection Hres as Hres.
  rewrite (script_on_converted_files converter uploaded_files texts st Hne H).
  cbv zeta. rewrite Hres, Hrep.
  unfold page_after, showing. simpl. rewrite <- !app_assoc. reflexivity.
Qed.

End Script.

(** X18.  For an error result the script shows [Error processing
    transactions: ] followed by the message, and neither the success
    notice nor a table, a download button or a warning. *)
Theorem script_shows_an_error_result :
  forall {python : Interpreter} (environ : string -> option string) (service : request -> outcome Response)
         (pandas_rejects : pyval -> option exn) (json_dumps : pyval -> outcome string)
         (str_of_other : pyval -> string)
         (converter : bytes -> outcome string) (uploaded_files : list bytes)
         (texts : list string) (st : app_state) (msg : string),
    uploaded_files <> [] ->
    Forall2 (fun f t => converter f = Ret t) uploaded_files texts ->
    fst (call (process_bank_transactions environ service (concat_texts texts)))
    = Ret (error_result msg) ->
    script environ service (Ret converter) pandas_rejects json_dumps str_of_other
      uploaded_files st
    = (Ret tt,
       page_after environ st (concat_texts texts) (error_result msg)
         [st_error ("Error processing transactions: " ++ msg)]).
Proof.
  intros python environ service pandas_rejects json_dumps str_of_other converter
         uploaded_files texts st msg Hne H Hres.
  apply (script_reports environ service pandas_rejects json_dumps str_of_other
           converter uploaded_files texts st _ _ Hne H Hres).
  intros st'. apply report_error.
Qed.

(** X19.  For a data result whose value is false in a condition (an empty
    object, an empty list, [null], zero, the empty string, [false]) the
    script shows the success notice and then the warning that no
    transactions were extracted. *)
Theorem script_warns_when_the_data_is_empty :
  forall {python : Interpreter} (environ : string -> option string) (service : request -> outcome Response)
         (pandas_rejects : pyval -> option exn) (json_dumps : pyval -> outcome string)
         (str_of_other : pyval -> string)
         (converter : bytes -> outcome string) (uploaded_files : list bytes)
         (texts : list string) (st : app_state) (v : pyval),
    uploaded_files <> [] ->
    Forall2 (fun f t => converter f = Ret t) uploaded_files texts ->
    fst (call (process_bank_transactions environ service (concat_texts texts)))
    = Ret (data_result v) ->
    truthy v = false ->
    script environ service (Ret converter) pandas_rejects json_dumps str_of_other
      uploaded_files st
    = (Ret tt,
       page_after environ st (concat_texts texts) (data_result v)
         [st_success "Successfully processed transactions";
          st_warning "No transactions were extracted from the document"]).
Proof.
  intros python environ service pandas_rejects json_dumps str_of_other converter
         uploaded_files texts st v Hne H Hres Hv.
  apply (script_reports environ service pandas_rejects json_dumps str_of_other
           converter uploaded_files texts st _ _ Hne H Hres).
  intros st'. rewrite report_data. unfold data_events. rewrite Hv. reflexivity.
Qed.

(** X20.  For a data result whose value is true in a condition, has
    [transactions] and is accepted by pandas, the script shows the success
    notice, the table, and the download button for [transactions.json]
    holding [json.dumps(result, indent=2)]; it shows no warning, also
    when the list of transactions is empty. *)
Theorem script_shows_the_table_and_the_download :
  forall {python : Interpreter} (environ : string -> option string) (service : request -> outcome Response)
         (pandas_rejects : pyval -> option exn) (json_dumps : pyval -> outcome string)
         (str_of_other : pyval -> string)
         (converter : bytes -> outcome string) (uploaded_files : list bytes)
         (texts : list string) (st : app_state) (v rows : pyval) (dumped : string),
    uploaded_files <> [] ->
    Forall2 (fun f t => converter f = Ret t) uploaded_files texts ->
    fst (call (process_bank_transactions environ service (concat_texts texts)))
    = Ret (data_result v) ->
    truthy v = true ->
    py_getitem v "transactions" = Ret rows ->
    pandas_rejects rows = None ->
    json_dumps (data_result v) = Ret dumped ->
    script environ service (Ret converter) pandas_rejects json_dumps str_of_other
      uploaded_files st
    = (Ret tt,
       page_after environ st (concat_texts texts) (data_result v)
         [st_success "Successfully processed transactions";
          st_subheader "Transactions";
          st_expander "View Transactions" true;
          st_dataframe (DataFrame_of rows);
          st_end;
          st_download_button "Download JSON" dumped
            "transactions.json" "application/json"]).
Proof.
  intros python environ service pandas_rejects json_dumps str_of_other converter
         uploaded_files texts st v rows dumped Hne H Hres Hv Hrows Hpd Hdump.
  apply (script_reports environ service pandas_rejects json_dumps str_of_other
           converter uploaded_files texts st _ _ Hne H Hres).
  intros st'. rewrite report_data. unfold data_events.
  rewrite Hv, Hrows, Hpd, Hdump. reflexivity.
Qed.


(** X17.  When every uploaded file converts, the script ends without an
    exception: the function was called on the concatenated text, one
    request was sent, [temp.pdf] is gone, and the page holds the head
    (extracted text, response) and the report of the result. *)
Theorem script_completes_when_the_files_convert :
  forall {python : Interpreter} (environ : string -> option string) (service : request -> outcome Response)
         (pandas_rejects : pyval -> option exn) (json_dumps : pyval -> outcome string)
         (str_of_other : pyval -> string)
         (converter : bytes -> outcome string) (uploaded_files : list bytes)
         (texts : list string) (st : app_state),
    uploaded_files <> [] ->
    Forall2 (fun f t => converter f = Ret t) uploaded_files texts ->
    exists result events,
      fst (call (process_bank_transactions environ service (concat_texts texts)))
      = Ret result
      /\ script environ service (Ret converter) pandas_rejects json_dumps str_of_other
           uploaded_files st
         = (Ret tt, page_after environ st (concat_texts texts) result events).
Proof.
  intros python environ service pandas_rejects json_dumps str_of_other converter
         uploaded_files texts st Hne H.
  assert (Hcall : fst (call (process_bank_transactions environ service (concat_texts texts)))
                  = Ret (answer (service (the_request environ (concat_texts texts)))))
    by (rewrite call_process_bank_transactions; reflexivity).
  destruct (answer_shape (service (the_request environ (concat_texts texts))))
    as [[v Hv] | [msg Hm]].
  - rewrite Hv in Hcall. exists (data_result v), (data_events pandas_rejects json_dumps v).
    split; [exact Hcall|].
    apply (script_reports environ service pandas_rejects json_dumps str_of_other
             converter uploaded_files texts st _ _ Hne H Hcall).
    intros st'. apply report_data.
  - rewrite Hm in Hcall.
    exists (error_result msg), [st_error ("Error processing transactions: " ++ msg)].
    split; [exact Hcall|].
    apply (script_reports environ service pandas_rejects json_dumps str_of_other
             converter uploaded_files texts st _ _ Hne H Hcall).
    intros st'. apply report_error.
Qed.

(** X22.  When the converter raises on a file, the script raises that
    exception: nothing was sent, the page holds the title, the uploader
    and the closed spinner only, and [temp.pdf] holds that file. *)
Theorem script_stops_when_a_file_does_not_convert :
  forall {python : Interpreter} (environ : string -> option string) (service : request -> outcome Response)
         (pandas_rejects : pyval -> option exn) (json_dumps : pyval -> outcome string)
         (str_of_other : pyval -> string)
         (converter : bytes -> outcome string) (done : list bytes) (texts : list string)
         (f : bytes) (rest : list bytes) (e : exn) (st : app_state),
    Forall2 (fun f t => converter f = Ret t) done texts ->
    converter f = Raise e ->
    script environ service (Ret converter) pandas_rejects json_dumps str_of_other
      (done ++ f :: rest) st
    = (Raise e,
       mk_app_state (dict_set (disk st) "temp.pdf" f) (sent st)
         (shown st ++ [st_title "Bank Transaction PDF Parser";
                       st_file_uploader "Upload Bank Statement PDFs" true ["pdf"%string];
                       st_spinner "Processing PDFs...";
                       st_end])).
Proof.
  intros python environ service pandas_rejects json_dumps str_of_other converter
         done texts f rest e st H He.
  pose proof (fun s => extract_stops converter done texts f rest e s H He) as Hx.
  unfold script.
  unfold app_bind at 1. rewrite show_showing.
  unfold app_bind at 1. rewrite show_showing, showing_showing.
  destruct (done ++ f :: rest) as [| x xs] eqn:E;
    [destruct done; discriminate E|].
  unfold with_block. rewrite show_showing. cbn [snd]. rewrite showing_showing.
  unfold app_bind at 1. rewrite Hx.
  unfold with_temp, showing. simpl. rewrite <- !app_assoc. reflexivity.
Qed.

(** ** The properties on concrete inputs *)

Lemma connection_failure_gives_the_connection_error_witness :
  call (process_bank_transactions no_environ
          (service_raising (mk_exn ConnectionError "Connection refused")) statement_text)
  = (Ret (error_result "Failed to connect to Ollama server"),
     [the_request no_environ statement_text]).
Proof.
  apply (connection_failure_gives_the_connection_error no_environ
           (service_raising (mk_exn ConnectionError "Connection refused")) statement_text
           (mk_exn ConnectionError "Connection refused")); reflexivity.
Defined.

Lemma connect_timeout_is_reported_as_timeout_witness :
  isinstance (mk_exn ConnectTimeout "Connection to host.docker.internal timed out")
    ConnectionError = true
  /\ call (process_bank_transactions no_environ
             (service_raising
                (mk_exn ConnectTimeout "Connection to host.docker.internal timed out"))
             statement_text)
     = (Ret (error_result "Request timed out connecting to Ollama"),
        [the_request no_environ statement_text]).
Proof.
  apply (connect_timeout_is_reported_as_timeout no_environ
           (service_raising
              (mk_exn ConnectTimeout "Connection to host.docker.internal timed out"))
           statement_text
           (mk_exn ConnectTimeout "Connection to host.docker.internal timed out"));
    reflexivity.
Defined.


Lemma body_without_message_is_an_unexpected_format_witness :
  call (process_bank_transactions no_environ
          (service_returning (http_response 200 "OK" (dq "{`done`: true}")))
          statement_text)
  = (Ret (error_result "Unexpected response format from model"),
     [the_request no_environ statement_text]).
Proof.
  apply (body_without_message_is_an_unexpected_format no_environ
           (service_returning (http_response 200 "OK" (dq "{`done`: true}")))
           statement_text
           (http_response 200 "OK" (dq "{`done`: true}"))
           (PDict [("done", PBool true)])).
  - reflexivity.
  - reflexivity.
  - vm_compute; reflexivity.
  - reflexivity.
Defined.

Lemma message_without_content_is_an_unexpected_error_witness :
  call (process_bank_transactions no_environ
          (service_returning (http_response 200 "OK" (dq "{`message`: `hello`}")))
          statement_text)
  = (Ret (error_result "Unexpected error: string indices must be integers, not 'str'"),
     [the_request no_environ statement_text]).
Proof.
  apply (message_without_content_is_an_unexpected_error no_environ
           (service_returning (http_response 200 "OK" (dq "{`message`: `hello`}")))
           statement_text
           (http_response 200 "OK" (dq "{`message`: `hello`}"))
           [("message", PStr "hello")] (PStr "hello")
           (mk_exn TypeError "string indices must be integers, not 'str'")).
  - reflexivity.
  - reflexivity.
  - vm_compute; reflexivity.
  - reflexivity.
  - reflexivity.
Defined.

Lemma content_that_is_not_text_is_an_unexpected_error_witness :
  call (process_bank_transactions no_environ
          (service_returning
             (http_response 200 "OK" (dq "{`message`: {`content`: 5}}")))
          statement_text)
  = (Ret (error_result
            "Unexpected error: the JSON object must be str, bytes or bytearray, not int"),
     [the_request no_environ statement_text]).
Proof.
  apply (content_that_is_not_text_is_an_unexpected_error no_environ
           (service_returning
              (http_response 200 "OK" (dq "{`message`: {`content`: 5}}")))
           statement_text
           (http_response 200 "OK" (dq "{`message`: {`content`: 5}}")) (PInt 5)).
  - reflexivity.
  - split; [reflexivity|].
    exists [("message", PDict [("content", PInt 5)])], [("content", PInt 5)].
    repeat split; vm_compute; reflexivity.
  - intros doc H. discriminate H.
Defined.


Lemma sample_files_convert :
  Forall2 (fun f t => sample_converter f = Ret t) sample_files sample_texts.
Proof. repeat (constructor; [reflexivity|]). constructor. Defined.

Lemma sample_files_not_empty : sample_files <> [].
Proof. intros H. discriminate H. Defined.

Lemma sample_extraction (st : app_state) :
  extract_pdf_text (Ret sample_converter) sample_files st
  = (Ret "Opening balance 1000.00 01-05-2024 Salary 500.00 CR 1500.00", without_temp st).
Proof.
  exact (extract_converts sample_converter sample_files sample_texts st
           sample_files_not_empty sample_files_convert).
Defined.

Lemma extract_pdf_text_concatenates_witness :
  extract_pdf_text (Ret sample_converter) sample_files empty_state
  = (Ret "Opening balance 1000.00 01-05-2024 Salary 500.00 CR 1500.00", empty_state).
Proof.
  destruct (extract_pdf_text_concatenates sample_converter sample_files sample_texts
              empty_state sample_files_not_empty sample_files_convert) as [H _].
  exact H.
Defined.

Lemma extract_pdf_text_leaves_the_file_on_failure_witness :
  extract_pdf_text (Ret sample_converter) (sample_files ++ [[]]) empty_state
  = (Raise (mk_exn ValueError "empty file"), with_temp [] empty_state).
Proof.
  destruct (extract_pdf_text_leaves_the_file_on_failure sample_converter sample_files
              sample_texts [] [] (mk_exn ValueError "empty file") empty_state
              sample_files_convert eq_refl) as [H _].
  exact H.
Defined.

Lemma extract_pdf_text_of_a_batch_witness :
  extract_pdf_text (Ret sample_converter) (sample_files ++ sample_files) empty_state
  = (Ret ("Opening balance 1000.00 01-05-2024 Salary 500.00 CR 1500.00"
            ++ "Opening balance 1000.00 01-05-2024 Salary 500.00 CR 1500.00")%string,
     without_temp empty_state).
Proof.
  apply (extract_pdf_text_of_a_batch (Ret sample_converter) sample_files sample_files
           _ _ empty_state empty_state empty_state empty_state empty_state
           sample_files_not_empty sample_files_not_empty);
    exact (sample_extraction empty_state).
Defined.

Lemma sample_text_is :
  concat_texts sample_texts = "Opening balance 1000.00 01-05-2024 Salary 500.00 CR 1500.00".
Proof. reflexivity. Defined.

Lemma script_completes_when_the_files_convert_witness :
  exists result events,
    fst (call (process_bank_transactions no_environ
                 (service_returning (chat_reply scenario_D)) (concat_texts sample_texts)))
    = Ret result
    /\ script no_environ (service_returning (chat_reply scenario_D))
         (Ret sample_converter) sample_pandas sample_dumps sample_str
         sample_files empty_state
       = (Ret tt, page_after no_environ empty_state (concat_texts sample_texts)
                    result events).
Proof.
  exact (script_completes_when_the_files_convert no_environ
           (service_returning (chat_reply scenario_D))
           sample_pandas sample_dumps sample_str sample_converter sample_files
           sample_texts empty_state sample_files_not_empty sample_files_convert).
Defined.

Lemma script_shows_an_error_result_witness :
  script no_environ (service_raising (mk_exn ReadTimeout "Read timed out."))
    (Ret sample_converter) sample_pandas sample_dumps sample_str
    sample_files empty_state
  = (Ret tt,
     page_after no_environ empty_state (concat_texts sample_texts)
       (error_result "Request timed out connecting to Ollama")
       [st_error "Error processing transactions: Request timed out connecting to Ollama"]).
Proof.
  apply (script_shows_an_error_result no_environ
           (service_raising (mk_exn ReadTimeout "Read timed out."))
           sample_pandas sample_dumps sample_str sample_converter sample_files
           sample_texts empty_state "Request timed out connecting to Ollama"
           sample_files_not_empty sample_files_convert).
  rewrite call_process_bank_transactions. reflexivity.
Defined.

Lemma script_warns_when_the_data_is_empty_witness :
  script no_environ (service_returning (chat_reply "{}"))
    (Ret sample_converter) sample_pandas sample_dumps sample_str
    sample_files empty_state
  = (Ret tt,
     page_after no_environ empty_state (concat_texts sample_texts)
       (data_result (PDict []))
       [st_success "Successfully processed transactions";
        st_warning "No transactions were extracted from the document"]).
Proof.
  apply (script_warns_when_the_data_is_empty no_environ
           (service_returning (chat_reply "{}"))
           sample_pandas sample_dumps sample_str sample_converter sample_files
           sample_texts empty_state (PDict [])
           sample_files_not_empty sample_files_convert).
  - rewrite call_process_bank_transactions. vm_compute. reflexivity.
  - reflexivity.
Defined.

Lemma script_shows_the_table_and_the_download_witness :
  script no_environ (service_returning (chat_reply scenario_D))
    (Ret sample_converter) sample_pandas sample_dumps sample_str
    sample_files empty_state
  = (Ret tt,
     page_after no_environ empty_state (concat_texts sample_texts)
       (data_result (PDict [("transactions", PList [])]))
       [st_success "Successfully processed transactions";
        st_subheader "Transactions";
        st_expander "View Transactions" true;
        st_dataframe (DataFrame_of (PList []));
        st_end;
        st_download_button "Download JSON" "{}" "transactions.json" "application/json"]).
Proof.
  apply (script_shows_the_table_and_the_download no_environ
           (service_returning (chat_reply scenario_D))
           sample_pandas sample_dumps sample_str sample_converter sample_files
           sample_texts empty_state (PDict [("transactions", PList [])]) (PList []) "{}"
           sample_files_not_empty sample_files_convert).
  - rewrite call_process_bank_transactions. vm_compute. reflexivity.
  - reflexivity.
  - reflexivity.
  - reflexivity.
  - reflexivity.
Defined.


Lemma script_stops_when_a_file_does_not_convert_witness :
  script no_environ (service_returning (chat_reply scenario_D))
    (Ret sample_converter) sample_pandas sample_dumps sample_str
    (sample_files ++ [[]]) empty_state
  = (Raise (mk_exn ValueError "empty file"),
     mk_app_state [("temp.pdf", [])] []
       [st_title "Bank Transaction PDF Parser";
        st_file_uploader "Upload Bank Statement PDFs" true ["pdf"%string];
        st_spinner "Processing PDFs...";
        st_end]).
Proof.
  exact (script_stops_when_a_file_does_not_convert no_environ
           (service_returning (chat_reply scenario_D))
           sample_pandas sample_dumps sample_str sample_converter sample_files
           sample_texts [] [] (mk_exn ValueError "empty file") empty_state
           sample_files_convert eq_refl).
Defined.

Lemma Transaction_names_a_missing_field_witness :
  exists errs,
    Pydantic.new_Transaction [("date", PStr "01-05-2024")] = inr errs
    /\ In (Pydantic.mk_verror [Pydantic.Key "amount"] "missing") errs.
Proof.
  apply (Transaction_names_a_missing_field [("date", PStr "01-05-2024")] "amount").
  - simpl. tauto.
  - reflexivity.
Defined.

Lemma Transaction_reads_its_six_fields_only_witness :
  Pydantic.new_Transaction (salary five_hundred "CREDIT")
  = Pydantic.new_Transaction (("note", PStr "seen") :: rev (salary five_hundred "CREDIT")).
Proof.
  apply (Transaction_reads_its_six_fields_only (salary five_hundred "CREDIT")
           (("note", PStr "seen") :: rev (salary five_hundred "CREDIT"))).
  intros k Hk. simpl in Hk.
  destruct Hk as [<- | [<- | [<- | [<- | [<- | [<- | []]]]]]]; reflexivity.
Defined.
